(** * Trading policy of the prophet agents (deploy.py)

    A shallow embedding of
    [predictionprophet_deployment/agents/prophet_agent/deploy.py]:
    the class [DeployableTraderAgentER] with its four methods
    [recently_betted], [pick_markets], [calculate_bet_amount] and
    [answer_binary_market], and the four agent classes derived from it.

    Conventions of the embedding.
    - Python [float] amounts are read as exact rationals ([Q]); the literals
      0.5, 0.75, 1.25, 0.1, 2.0 and 10.0 are the same decimals here.  Rounding
      and NaN are outside the model.
    - The collaborators the module imports (market APIs, subgraph handler,
      benchmark agents, betting helpers, clock, credentials) are the fields
      of one record, [Services].  They answer from a snapshot: within a run
      the same request gets the same reply, and they do not fail.
    - Logging and outbound requests are recorded, in program order, in the
      trace of the monad [M]; [should_not_happen] ends the computation with
      [Raise]. *)

From Stdlib Require Import QArith Lqa ZArith.
From stdpp Require Import base list gmap strings.

Open Scope string_scope.
Open Scope list_scope.
Open Scope Z_scope.

(** ** Values exchanged with the tooling library *)

Module BetAmount.
(** [BetAmount(amount=..., currency=...)]. *)
Record t := mk { amount : Q; currency : string }.
End BetAmount.

(** [Answer]: only [decision] is read by this module. *)
Record Answer := { decision : bool; p_yes : Q; confidence : Q }.

(** The result of [agent.predict]: [outcome_prediction] may be [None]. *)
Record Prediction := { outcome_prediction : option Answer }.

(** The classes the module tests with [isinstance]; every other subclass of
    [AgentMarket] is [OtherAgentMarket].  A class carries the methods that
    only it is asked for. *)
Inductive market_class :=
| ManifoldAgentMarket (get_minimum_bet_to_win : bool → Q → Q)
| OmenAgentMarket (get_liquidity_in_xdai : Q)
| OtherAgentMarket.

Record AgentMarket := {
  question : string;
  current_p_yes : Q;
  currency : string;
  get_tiny_bet_amount : BetAmount.t;
  class_of : market_class
}.

Record ManifoldUser := { id : string }.
Record ManifoldBet := { contractId : string }.
Module ManifoldMarket.
Record t := mk { question : string }.
End ManifoldMarket.
Record OmenBet := { title : string }.

Inductive EmbeddingModel := openai | spacy.

(** [AbstractBenchmarkedAgent]: the two oracles of a benchmark agent. *)
Record AbstractBenchmarkedAgent := {
  is_predictable : string → bool;
  predict : string → Prediction
}.

(** ** Collaborators *)

Record Services := {
  utcnow : Z;                                     (* seconds *)
  manifold_api_key : string;
  public_key : string;
  get_authenticated_user : string → ManifoldUser;
  get_manifold_bets : string → Z → option Z → list ManifoldBet;
  get_manifold_market : string → ManifoldMarket.t;
  omen_get_bets : string → Z → list OmenBet;
  prob_uncertainty : Q → Q;
  stretch_bet_between : Q → Q → Q → Q;
  PredictionProphetAgent : string → AbstractBenchmarkedAgent;
  OlasAgent : string → EmbeddingModel → AbstractBenchmarkedAgent
}.

Definition timedelta_hours (hours : Z) : Z := hours * 3600.

(** ** Diagnostics, requests and the effect monad *)

Inductive level := INFO | WARNING | ERROR.

(** One constructor per message template of the module, with the values
    the f-string interpolates. *)
Inductive message :=
| Looking_if_we_recently_bet_on (q : string)
| Recently_betted_skipping
| Verifying_market_predictability_for (q : string)
| Market_is_predictable (q : string)
| Calculated_amount_is_exceeding_our_limit
    (amount : Q) (currency : string) (max_bet_amount : Q) (tiny : BetAmount.t)
| Prediction_failed_for (q : string)
| Answering_with (q : string) (decision : bool)
| Uknown_market (market : AgentMarket)
| Unknown_market_type (market : AgentMarket).

Inductive request :=
| GetAuthenticatedUser (api_key : string)
| GetManifoldBets (user_id : string) (start_time : Z) (end_time : option Z)
| GetManifoldMarket (contract_id : string)
| OmenGetBets (better_address : string) (start_time : Z)
| IsPredictable (q : string)
| Predict (q : string).

Inductive event :=
| Log (lvl : level) (msg : message)
| Call (r : request).

Inductive exn := RuntimeError (msg : message).

Inductive outcome (A : Type) :=
| Return (a : A)
| Raise (e : exn).
Arguments Return {A} a.
Arguments Raise {A} e.

Record M (A : Type) := mkM { trace : list event; result : outcome A }.
Arguments mkM {A} trace result.
Arguments trace {A} m.
Arguments result {A} m.

#[global] Instance M_ret : MRet M := λ A a, mkM [] (Return a).

#[global] Instance M_bind : MBind M := λ A B f m,
  match m with
  | mkM tr (Return a) => let (tr', r) := f a in mkM (tr ++ tr') r
  | mkM tr (Raise e) => mkM tr (Raise e)
  end.

Definition logger (lvl : level) (msg : message) : M unit :=
  mkM [Log lvl msg] (Return ()).

(** An outbound request and the reply the service gives. *)
Definition call {A} (r : request) (reply : A) : M A :=
  mkM [Call r] (Return reply).

Definition should_not_happen {A} (msg : message) : M A :=
  mkM [] (Raise (RuntimeError msg)).

(** Python's [x > y] on amounts. *)
Definition Qgtb (x y : Q) : bool :=
  match (x ?= y)%Q with Gt => true | _ => false end.

(** ** DeployableTraderAgentER *)

Record DeployableTraderAgentER := {
  agent : AbstractBenchmarkedAgent;
  max_markets_per_run : Z
}.

Section Policy.
Variable sv : Services.

(** The local [recently_betted_questions] of [recently_betted]: the class
    test comes first, so no request is made for an unknown class. *)
Definition recently_betted_questions (market : AgentMarket) : M (gset string) :=
  let start_time := utcnow sv - timedelta_hours 24 in
  match class_of market with
  | ManifoldAgentMarket _ =>
      user ← call (GetAuthenticatedUser (manifold_api_key sv))
                  (get_authenticated_user sv (manifold_api_key sv));
      bets ← call (GetManifoldBets (id user) start_time None)
                  (get_manifold_bets sv (id user) start_time None);
      questions ← mapM (λ b,
          m ← call (GetManifoldMarket (contractId b))
                   (get_manifold_market sv (contractId b));
          mret (ManifoldMarket.question m)) bets;
      mret (list_to_set questions)
  | OmenAgentMarket _ =>
      bets ← call (OmenGetBets (public_key sv) start_time)
                  (omen_get_bets sv (public_key sv) start_time);
      mret (list_to_set (title <$> bets))
  | OtherAgentMarket => should_not_happen (Uknown_market market)
  end.

Definition recently_betted (market : AgentMarket) : M bool :=
  questions ← recently_betted_questions market;
  mret (bool_decide (question market ∈ questions)).

Section Methods.
Variable self : DeployableTraderAgentER.

(** The [for] loop of [pick_markets]: [continue] goes on with the rest
    and the same list, [break] returns the list as it is. *)
Fixpoint pick_markets_loop (markets picked_markets : list AgentMarket)
  : M (list AgentMarket) :=
  match markets with
  | [] => mret picked_markets
  | market :: markets =>
      logger INFO (Looking_if_we_recently_bet_on (question market));;
      recent ← recently_betted market;
      if recent : bool then
        logger INFO Recently_betted_skipping;;
        pick_markets_loop markets picked_markets
      else
        logger INFO (Verifying_market_predictability_for (question market));;
        predictable ← call (IsPredictable (question market))
                           (is_predictable (agent self) (question market));
        picked_markets ←
          (if predictable : bool then
             logger INFO (Market_is_predictable (question market));;
             mret (picked_markets ++ [market])
           else mret picked_markets);
        if max_markets_per_run self <=? Z.of_nat (List.length picked_markets)
        then mret picked_markets
        else pick_markets_loop markets picked_markets
  end.

Definition pick_markets (markets : list AgentMarket) : M (list AgentMarket) :=
  pick_markets_loop markets [].

(** The first [if]/[elif]/[else] of [calculate_bet_amount]: the computed
    [amount] and the [max_bet_amount] that goes with it. *)
Definition amount_and_max_bet_amount (answer : Answer) (market : AgentMarket)
  : M (Q * Q) :=
  match class_of market with
  | ManifoldAgentMarket get_minimum_bet_to_win =>
      let amount := get_minimum_bet_to_win (decision answer) 1%Q in
      let max_bet_amount := 10.0%Q in
      mret (amount, max_bet_amount)
  | OmenAgentMarket market_liquidity =>
      let amount :=
        stretch_bet_between sv
          (prob_uncertainty sv (current_p_yes market)) 0.5%Q 1.0%Q in
      let amount :=
        if Bool.eqb (decision answer) (Qgtb (current_p_yes market) 0.5)
        then (amount * 0.75)%Q
        else (amount * 1.25)%Q in
      let max_bet_amount :=
        if Qgtb market_liquidity 5 then 2.0%Q
        else if Qgtb market_liquidity 1 then 0.1%Q
        else 0%Q in
      mret (amount, max_bet_amount)
  | OtherAgentMarket => should_not_happen (Unknown_market_type market)
  end.

Definition calculate_bet_amount (answer : Answer) (market : AgentMarket)
  : M BetAmount.t :=
  '(amount, max_bet_amount) ← amount_and_max_bet_amount answer market;
  amount ←
    (if Qgtb amount max_bet_amount then
       logger WARNING
         (Calculated_amount_is_exceeding_our_limit
            amount (currency market) max_bet_amount
            (get_tiny_bet_amount market));;
       mret (BetAmount.amount (get_tiny_bet_amount market))
     else mret amount);
  mret (BetAmount.mk amount (currency market)).

Definition answer_binary_market (market : AgentMarket) : M (option Answer) :=
  prediciton ← call (Predict (question market))
                    (predict (agent self) (question market));
  match outcome_prediction prediciton with
  | None =>
      logger ERROR (Prediction_failed_for (question market));;
      mret None
  | Some outcome_prediction =>
      logger INFO
        (Answering_with (question market) (decision outcome_prediction));;
      mret (Some outcome_prediction)
  end.
End Methods.

(** ** The agent classes *)

Definition DeployablePredictionProphetGPT3Agent : DeployableTraderAgentER :=
  {| agent := PredictionProphetAgent sv "gpt-3.5-turbo-0125";
     max_markets_per_run := 5 |}.

Definition DeployablePredictionProphetGPT4TurboPreviewAgent : DeployableTraderAgentER :=
  {| agent := PredictionProphetAgent sv "gpt-4-0125-preview";
     max_markets_per_run := 1 |}.

Definition DeployablePredictionProphetGPT4TurboFinalAgent : DeployableTraderAgentER :=
  {| agent := PredictionProphetAgent sv "gpt-4-turbo-2024-04-09";
     max_markets_per_run := 1 |}.

Definition DeployableOlasEmbeddingOAAgent : DeployableTraderAgentER :=
  {| agent := OlasAgent sv "gpt-3.5-turbo-0125" openai;
     max_markets_per_run := 5 |}.

(** The agent classes of the module that can be deployed (the base class
    binds no [agent]). *)
Definition deployable_agents : list DeployableTraderAgentER :=
  [ DeployablePredictionProphetGPT3Agent;
    DeployablePredictionProphetGPT4TurboPreviewAgent;
    DeployablePredictionProphetGPT4TurboFinalAgent;
    DeployableOlasEmbeddingOAAgent ].
End Policy.

Arguments recently_betted_questions sv market : simpl never.

(** ** What the properties are stated with *)

(** The list after the body of the loop ran on a market that was not
    recently betted. *)
Definition picked_after (self : DeployableTraderAgentER)
    (market : AgentMarket) (picked : list AgentMarket) : list AgentMarket :=
  if is_predictable (agent self) (question market)
  then picked ++ [market] else picked.

(** The element of the generator over the Manifold bets: the question of
    the market of a bet. *)
Definition manifold_question (sv : Services) (b : ManifoldBet) : M string :=
  m ← call (GetManifoldMarket (contractId b))
           (get_manifold_market sv (contractId b));
  mret (ManifoldMarket.question m).

(** The events of a trace that fetch a bet history. *)
Definition is_history_fetch (e : event) : bool :=
  match e with
  | Call (GetManifoldBets _ _ _) | Call (OmenGetBets _ _) => true
  | _ => false
  end.

Definition history_fetches (tr : list event) : nat :=
  List.length (List.filter is_history_fetch tr).

(** The iterations of the loop that a trace shows: each one starts with the
    line "Looking if we recently bet on ...". *)
Definition is_looking (e : event) : bool :=
  match e with
  | Log INFO (Looking_if_we_recently_bet_on _) => true
  | _ => false
  end.

Definition markets_evaluated (tr : list event) : nat :=
  List.length (List.filter is_looking tr).

(** The log lines of a trace. *)
Definition log_lines (tr : list event) : list (level * message) :=
  omap (λ e, match e with Log lvl msg => Some (lvl, msg) | Call _ => None end) tr.

(** The platforms among the candidates: Manifold, Omen, both or none. *)
Definition is_Manifold (market : AgentMarket) : bool :=
  match class_of market with ManifoldAgentMarket _ => true | _ => false end.

Definition is_Omen (market : AgentMarket) : bool :=
  match class_of market with OmenAgentMarket _ => true | _ => false end.

Definition platforms (markets : list AgentMarket) : nat :=
  ((if existsb is_Manifold markets then 1 else 0)
   + (if existsb is_Omen markets then 1 else 0))%nat.

(** The base stake of an Omen market: the uncertainty of the current
    probability stretched between 0.5 and 1.0. *)
Definition base_stake (sv : Services) (market : AgentMarket) : Q :=
  stretch_bet_between sv (prob_uncertainty sv (current_p_yes market)) 0.5 1.0.

(** The decision that sides with the majority of the market. *)
Definition majority (market : AgentMarket) : bool :=
  Qgtb (current_p_yes market) 0.5.

(** A candidate passes the two tests of the loop when its recency test
    returns [False] and the oracle judges its question predictable. *)
Definition passes (sv : Services) (self : DeployableTraderAgentER)
    (market : AgentMarket) : bool :=
  match result (recently_betted sv market) with
  | Return false => is_predictable (agent self) (question market)
  | _ => false
  end.

(** The events of a trace that satisfy a test. *)
Definition count_events (P : event → bool) (tr : list event) : nat :=
  List.length (List.filter P tr).

Definition is_skipping (e : event) : bool :=
  match e with Log INFO Recently_betted_skipping => true | _ => false end.

Definition is_predictable_line (e : event) : bool :=
  match e with Log INFO (Market_is_predictable _) => true | _ => false end.

Definition is_predictability_request (e : event) : bool :=
  match e with Call (IsPredictable _) => true | _ => false end.

Definition is_market_lookup (e : event) : bool :=
  match e with Call (GetManifoldMarket _) => true | _ => false end.

(** The requests of the recency test, as opposed to those to the agent. *)
Definition is_history_request (e : event) : bool :=
  match e with
  | Call (IsPredictable _) | Call (Predict _) | Log _ _ => false
  | Call _ => true
  end.

(** The Manifold bets of the last 24 hours and the Omen bets of the last 24
    hours, as [recently_betted] asks for them. *)
Definition manifold_bets_24h (sv : Services) : list ManifoldBet :=
  get_manifold_bets sv
    (id (get_authenticated_user sv (manifold_api_key sv)))
    (utcnow sv - 86400) None.

Definition omen_bets_24h (sv : Services) : list OmenBet :=
  omen_get_bets sv (public_key sv) (utcnow sv - 86400).

(** ** A concrete deployment

    One instance of the collaborators and a few markets, on which the
    methods are run in the examples below.  The uncertainty is a parabola
    through (0,0), (1/2,1) and (1,0) and the stretch is linear. *)

Module Sample.
Definition benchmark_agent (model : string) : AbstractBenchmarkedAgent :=
  {| is_predictable := λ q, String.prefix "Will " q;
     predict := λ q,
       if String.eqb q "Will ETH close above 4000?"
       then {| outcome_prediction :=
                 Some {| decision := true; p_yes := 0.8; confidence := 0.9 |} |}
       else {| outcome_prediction := None |} |}.

Definition services : Services :=
  {| utcnow := 1700000000;
     manifold_api_key := "secret";
     public_key := "0xA11CE";
     get_authenticated_user := λ _, {| id := "prophet" |};
     get_manifold_bets := λ _ _ _, [ {| contractId := "c1" |} ];
     get_manifold_market := λ c,
       ManifoldMarket.mk
         (if String.eqb c "c1" then "Will it rain tomorrow?" else "");
     omen_get_bets := λ _ _, [ {| title := "Will BTC close above 100k?" |} ];
     prob_uncertainty := λ p,
       (if Qgtb p 0 && Qgtb 1 p then 4 * p * (1 - p) else 0)%Q;
     stretch_bet_between := λ p min_bet max_bet,
       (min_bet + (max_bet - min_bet) * p)%Q;
     PredictionProphetAgent := benchmark_agent;
     OlasAgent := λ model _, benchmark_agent model |}.

Definition manifold_rain : AgentMarket :=
  {| question := "Will it rain tomorrow?"; current_p_yes := 0.6;
     currency := "Mana"; get_tiny_bet_amount := BetAmount.mk 1 "Mana";
     class_of := ManifoldAgentMarket (λ _ _, 3%Q) |}.

Definition manifold_snow : AgentMarket :=
  {| question := "Will it snow tomorrow?"; current_p_yes := 0.2;
     currency := "Mana"; get_tiny_bet_amount := BetAmount.mk 1 "Mana";
     class_of := ManifoldAgentMarket (λ _ _, 12%Q) |}.

Definition omen (q : string) (p liquidity : Q) : AgentMarket :=
  {| question := q; current_p_yes := p;
     currency := "xDai"; get_tiny_bet_amount := BetAmount.mk 0.00001 "xDai";
     class_of := OmenAgentMarket liquidity |}.

Definition omen_eth := omen "Will ETH close above 4000?" 0.5 10.
Definition omen_btc := omen "Will BTC close above 100k?" 0.7 10.
Definition omen_thin := omen "Will ETH close above 4000?" 0.5 3.
Definition omen_vague := omen "Who wins?" 0.5 10.
Definition omen_vague' := omen "What happens next?" 0.5 10.

Definition polymarket : AgentMarket :=
  {| question := "Will the bill pass?"; current_p_yes := 0.4;
     currency := "USDC"; get_tiny_bet_amount := BetAmount.mk 0.01 "USDC";
     class_of := OtherAgentMarket |}.

Definition gpt3 := DeployablePredictionProphetGPT3Agent services.
Definition gpt4 := DeployablePredictionProphetGPT4TurboFinalAgent services.

(** Two answers that differ in the decision only. *)
Definition answer (d : bool) : Answer :=
  {| decision := d; p_yes := 0.8; confidence := 0.9 |}.
Definition yes : Answer := answer true.
Definition no : Answer := answer false.

(** Two Omen markets that lean to yes, one above the liquidity of 5 and one
    below. *)
Definition omen_lean := omen "Will ETH close above 5000?" 0.75 10.
Definition omen_lean_thin := omen "Will ETH close above 5000?" 0.75 3.
End Sample.

(** ** Laws of the effect monad *)

Section MonadLaws.
Context {A B : Type}.
Implicit Types (m : M A) (f : A → M B).

Lemma result_bind m f :
  result (m ≫= f) =
  match result m with Return a => result (f a) | Raise e => Raise e end.
Proof.
  unfold mbind, M_bind.
  destruct m as [tr [a|e]]; cbn; [by destruct (f a) | done].
Qed.

Lemma trace_bind m f :
  trace (m ≫= f) =
  match result m with Return a => trace m ++ trace (f a) | Raise _ => trace m end.
Proof.
  unfold mbind, M_bind.
  destruct m as [tr [a|e]]; cbn; [by destruct (f a) | done].
Qed.

End MonadLaws.

Lemma result_logger_bind {B} lvl msg (k : () → M B) :
  result (logger lvl msg ≫= k) = result (k ()).
Proof. by rewrite result_bind. Qed.

Lemma trace_logger_bind {B} lvl msg (k : () → M B) :
  trace (logger lvl msg ≫= k) = Log lvl msg :: trace (k ()).
Proof. by rewrite trace_bind. Qed.

Lemma result_call_bind {A B} r (reply : A) (f : A → M B) :
  result (call r reply ≫= f) = result (f reply).
Proof. by rewrite result_bind. Qed.

Lemma trace_call_bind {A B} r (reply : A) (f : A → M B) :
  trace (call r reply ≫= f) = Call r :: trace (f reply).
Proof. by rewrite trace_bind. Qed.

Lemma result_ret_bind {A B} (a : A) (f : A → M B) : result (mret a ≫= f) = result (f a).
Proof. by rewrite result_bind. Qed.

Lemma trace_ret_bind {A B} (a : A) (f : A → M B) : trace (mret a ≫= f) = trace (f a).
Proof. by rewrite trace_bind. Qed.

Create Rewrite HintDb effects.
#[global] Hint Rewrite
  @result_logger_bind @trace_logger_bind @result_call_bind @trace_call_bind
  @result_ret_bind @trace_ret_bind : effects.

(** Runs the primitive steps at the head of a computation. *)
Ltac run := autorewrite with effects; cbn [result trace mret M_ret].

(** ** One iteration of the loop of [pick_markets] *)

Section Loop.
Variable sv : Services.
Variable self : DeployableTraderAgentER.

Lemma result_pick_markets_loop_cons market markets picked :
  result (pick_markets_loop sv self (market :: markets) picked) =
  match result (recently_betted sv market) with
  | Raise e => Raise e
  | Return true => result (pick_markets_loop sv self markets picked)
  | Return false =>
      if max_markets_per_run self
         <=? Z.of_nat (List.length (picked_after self market picked))
      then Return (picked_after self market picked)
      else result (pick_markets_loop sv self markets (picked_after self market picked))
  end.
Proof.
  cbn [pick_markets_loop]. run. rewrite result_bind.
  destruct (result (recently_betted sv market)) as [[|]|e]; [by run| |done].
  run. rewrite result_bind. unfold picked_after.
  destruct (is_predictable _ _); run; by destruct (_ <=? _).
Qed.

Lemma trace_pick_markets_loop_cons market markets picked :
  trace (pick_markets_loop sv self (market :: markets) picked) =
  Log INFO (Looking_if_we_recently_bet_on (question market))
  :: trace (recently_betted sv market) ++
  match result (recently_betted sv market) with
  | Raise e => []
  | Return true =>
      Log INFO Recently_betted_skipping
      :: trace (pick_markets_loop sv self markets picked)
  | Return false =>
      Log INFO (Verifying_market_predictability_for (question market))
      :: Call (IsPredictable (question market))
      :: (if is_predictable (agent self) (question market)
          then [Log INFO (Market_is_predictable (question market))] else [])
      ++ (if max_markets_per_run self
             <=? Z.of_nat (List.length (picked_after self market picked))
          then []
          else trace (pick_markets_loop sv self markets (picked_after self market picked)))
  end.
Proof.
  cbn [pick_markets_loop]. run. f_equal. rewrite trace_bind.
  destruct (result (recently_betted sv market)) as [[|]|e].
  - by run.
  - run. do 3 f_equal. rewrite trace_bind. unfold picked_after.
    destruct (is_predictable _ _); run;
      destruct (_ <=? _); cbn; by rewrite ?app_nil_r.
  - by rewrite app_nil_r.
Qed.
End Loop.

(** ** Requests and replies of [recently_betted] *)

Lemma history_fetches_app tr1 tr2 :
  history_fetches (tr1 ++ tr2) = (history_fetches tr1 + history_fetches tr2)%nat.
Proof. unfold history_fetches. by rewrite List.filter_app, List.length_app. Qed.

Lemma markets_evaluated_app tr1 tr2 :
  markets_evaluated (tr1 ++ tr2)
  = (markets_evaluated tr1 + markets_evaluated tr2)%nat.
Proof. unfold markets_evaluated. by rewrite List.filter_app, List.length_app. Qed.

Section RecentlyBetted.
Variable sv : Services.

Lemma result_mapM_resolve bets :
  result (mapM (manifold_question sv) bets)
  = Return ((λ b, ManifoldMarket.question (get_manifold_market sv (contractId b)))
              <$> bets).
Proof.
  induction bets as [|b bets IH]; [done|].
  cbn [mapM]. rewrite result_bind.
  change (result (manifold_question sv b))
    with (Return (ManifoldMarket.question (get_manifold_market sv (contractId b)))).
  cbn beta iota. by rewrite result_bind, IH.
Qed.

Lemma trace_mapM_resolve bets :
  trace (mapM (manifold_question sv) bets)
  = (λ b, Call (GetManifoldMarket (contractId b))) <$> bets.
Proof.
  induction bets as [|b bets IH]; [done|].
  cbn [mapM]. rewrite trace_bind.
  change (result (manifold_question sv b))
    with (Return (ManifoldMarket.question (get_manifold_market sv (contractId b)))).
  change (trace (manifold_question sv b)) with [Call (GetManifoldMarket (contractId b))].
  cbn beta iota. rewrite trace_bind, result_mapM_resolve, IH.
  cbn. by rewrite app_nil_r.
Qed.

Lemma recently_betted_questions_other market :
  class_of market = OtherAgentMarket →
  recently_betted_questions sv market
  = mkM [] (Raise (RuntimeError (Uknown_market market))).
Proof. unfold recently_betted_questions. by intros ->. Qed.

Lemma recently_betted_questions_returns market :
  class_of market ≠ OtherAgentMarket →
  ∃ questions, result (recently_betted_questions sv market) = Return questions.
Proof.
  unfold recently_betted_questions. destruct (class_of market); [| |done]; intros _.
  - rewrite !result_bind. cbn [call result]. rewrite !result_bind. cbn [call result].
    rewrite result_bind. change (mapM _ ?l) with (mapM (manifold_question sv) l). rewrite result_mapM_resolve. eauto.
  - rewrite result_bind. cbn. eauto.
Qed.

Lemma history_fetches_mapM_resolve bets :
  history_fetches (trace (mapM (manifold_question sv) bets)) = 0%nat.
Proof.
  rewrite trace_mapM_resolve. unfold history_fetches.
  induction bets as [|b bets IH]; [done|]. by cbn.
Qed.

(** Each call of [recently_betted] on a market of a known class fetches
    the history of the platform once. *)
Lemma history_fetches_recently_betted_questions market :
  class_of market ≠ OtherAgentMarket →
  history_fetches (trace (recently_betted_questions sv market)) = 1%nat.
Proof.
  unfold recently_betted_questions. destruct (class_of market); [| |done]; intros _.
  - rewrite trace_bind. cbn [call result trace].
    rewrite trace_bind. cbn [call result trace].
    rewrite trace_bind. change (mapM _ ?l) with (mapM (manifold_question sv) l). rewrite result_mapM_resolve.
    cbn [mret M_ret trace]. rewrite app_nil_r.
    change ([?a] ++ [?b] ++ ?l) with ([a; b] ++ l).
    rewrite history_fetches_app, history_fetches_mapM_resolve. done.
  - rewrite trace_bind. done.
Qed.

Lemma markets_evaluated_recently_betted_questions market :
  markets_evaluated (trace (recently_betted_questions sv market)) = 0%nat.
Proof.
  unfold recently_betted_questions. destruct (class_of market); [| |done].
  - rewrite trace_bind. cbn [call result trace].
    rewrite trace_bind. cbn [call result trace].
    rewrite trace_bind. change (mapM _ ?l) with (mapM (manifold_question sv) l). rewrite result_mapM_resolve.
    cbn [mret M_ret trace]. rewrite app_nil_r, trace_mapM_resolve.
    unfold markets_evaluated. cbn.
    induction (get_manifold_bets _ _ _ _) as [|b bets IH]; [done|]. by cbn.
  - rewrite trace_bind. done.
Qed.

Lemma result_recently_betted market :
  result (recently_betted sv market) =
  match result (recently_betted_questions sv market) with
  | Return questions => Return (bool_decide (question market ∈ questions))
  | Raise e => Raise e
  end.
Proof. unfold recently_betted. by rewrite result_bind. Qed.

Lemma trace_recently_betted market :
  trace (recently_betted sv market) = trace (recently_betted_questions sv market).
Proof.
  unfold recently_betted. rewrite trace_bind.
  destruct (result _); [|done]. cbn. by rewrite app_nil_r.
Qed.
End RecentlyBetted.

(** ** Properties of the loop of [pick_markets] *)

Section LoopProperties.
Variable sv : Services.
Variable self : DeployableTraderAgentER.

Abbreviation loop := (pick_markets_loop sv self).
Abbreviation cap := (max_markets_per_run self).

Lemma length_picked_after market picked :
  (List.length (picked_after self market picked) ≤ S (List.length picked))%nat.
Proof.
  unfold picked_after. destruct (is_predictable _ _); [|lia].
  rewrite List.length_app. cbn. lia.
Qed.

(** Below the cap at the start of an iteration, at most the cap at the end. *)
Lemma pick_markets_loop_length markets : ∀ picked out,
  Z.of_nat (List.length picked) < cap →
  result (loop markets picked) = Return out →
  Z.of_nat (List.length out) ≤ cap.
Proof.
  induction markets as [|market markets IH]; intros picked out Hlt.
  - cbn. intros [= <-]. lia.
  - rewrite result_pick_markets_loop_cons.
    destruct (result (recently_betted sv market)) as [[|]|e]; [by apply IH| |done].
    pose proof (length_picked_after market picked) as Hlen.
    destruct (cap <=? _) eqn:Hcap.
    + intros [= <-]. lia.
    + apply IH. lia.
Qed.

(** The loop only appends, and what it appends is taken from the
    candidates in their order. *)
Lemma pick_markets_loop_sublist markets : ∀ picked out,
  result (loop markets picked) = Return out →
  ∃ new, out = picked ++ new ∧ new `sublist_of` markets.
Proof.
  induction markets as [|market markets IH]; intros picked out.
  - cbn. intros [= <-]. exists []. by rewrite app_nil_r.
  - rewrite result_pick_markets_loop_cons.
    destruct (result (recently_betted sv market)) as [[|]|e]; [| |done].
    + intros (new & -> & Hsub)%IH. exists new. split; [done|].
      by apply sublist_cons.
    + assert (∃ l, picked_after self market picked = picked ++ l
                   ∧ ∀ new, new `sublist_of` markets →
                            (l ++ new) `sublist_of` (market :: markets))
        as (l & Hl & Hsub).
      { unfold picked_after. destruct (is_predictable _ _).
        - exists [market]. split; [done|]. intros new ?. by apply sublist_skip.
        - exists []. rewrite app_nil_r. split; [done|].
          intros new ?. by apply sublist_cons. }
      destruct (cap <=? _).
      * intros [= <-]. exists l. split; [done|].
        rewrite <- (app_nil_r l). apply Hsub, sublist_nil_l.
      * intros (new & -> & Hnew)%IH. exists (l ++ new).
        rewrite Hl, <- app_assoc. split; [done|]. by apply Hsub.
Qed.

(** The loop returns when every candidate is of a known class. *)
Lemma pick_markets_loop_returns markets : ∀ picked,
  Forall (λ market, class_of market ≠ OtherAgentMarket) markets →
  ∃ out, result (loop markets picked) = Return out.
Proof.
  induction markets as [|market markets IH]; intros picked Hknown.
  - cbn. eauto.
  - apply Forall_cons in Hknown as [Hm Hknown].
    rewrite result_pick_markets_loop_cons, result_recently_betted.
    destruct (recently_betted_questions_returns sv market Hm) as [qs ->].
    destruct (bool_decide _); [by apply IH|].
    destruct (cap <=? _); [eauto | by apply IH].
Qed.

(** A market the loop appended had passed the recency test. *)
Lemma pick_markets_loop_not_recent markets : ∀ picked out market,
  result (loop markets picked) = Return out →
  market ∈ out →
  market ∈ picked ∨ result (recently_betted sv market) = Return false.
Proof.
  induction markets as [|m markets IH]; intros picked out market.
  - cbn. intros [= <-]. by left.
  - rewrite result_pick_markets_loop_cons.
    destruct (result (recently_betted sv m)) as [[|]|e] eqn:Hm; [by apply IH| |done].
    assert (∀ x, x ∈ picked_after self m picked → x ∈ picked ∨ x = m) as Hafter.
    { intros x. unfold picked_after. destruct (is_predictable _ _); [|by left].
      rewrite elem_of_app, list_elem_of_singleton. tauto. }
    destruct (cap <=? _).
    + intros [= <-] [?| ->]%Hafter; [by left | by right].
    + intros Hout Hin. destruct (IH _ _ _ Hout Hin) as [[?| ->]%Hafter|?]; auto.
Qed.

(** When a run over candidates with an unknown-class market returns, the
    loop had left before reaching that market. *)
Lemma pick_markets_loop_unknown_not_reached pre market post : ∀ picked out,
  class_of market = OtherAgentMarket →
  result (loop (pre ++ market :: post) picked) = Return out →
  result (loop pre picked) = Return out.
Proof.
  induction pre as [|m pre IH]; intros picked out Hother.
  - rewrite app_nil_l, result_pick_markets_loop_cons, result_recently_betted.
    by rewrite recently_betted_questions_other.
  - rewrite <- app_comm_cons, !result_pick_markets_loop_cons.
    destruct (result (recently_betted sv m)) as [[|]|e]; [by apply IH| |done].
    destruct (cap <=? _); [done | by apply IH].
Qed.
End LoopProperties.

(** ** Market selection *)

Lemma deployable_agents_cap sv self :
  self ∈ deployable_agents sv → 1 ≤ max_markets_per_run self.
Proof.
  unfold deployable_agents. rewrite !elem_of_cons, elem_of_nil.
  intros [->|[->|[->|[->|[]]]]]; cbn; lia.
Qed.

(** With a cap of at least one the selection never exceeds it. *)
Lemma pick_markets_length sv self markets picked :
  1 ≤ max_markets_per_run self →
  result (pick_markets sv self markets) = Return picked →
  Z.of_nat (List.length picked) ≤ max_markets_per_run self.
Proof.
  intros Hcap Hres.
  apply (pick_markets_loop_length sv self markets [] picked); [cbn; lia | exact Hres].
Qed.

(** The cap is tested after a market was appended, so it is the cap of at
    least one that bounds the selection: an agent configured with zero still
    picks the first market that passes both tests. *)
Example pick_markets_cap_zero :
  result (pick_markets Sample.services
            {| agent := Sample.benchmark_agent "m"; max_markets_per_run := 0 |}
            [Sample.omen_eth; Sample.manifold_snow])
  = Return [Sample.omen_eth].
Proof. vm_compute. reflexivity. Qed.

(** C2. For each agent class of the module (cap 5, 1, 1 and 5) and every
    sequence of candidate markets, [pick_markets] returns at most
    [max_markets_per_run] markets and what it returns is a subsequence of the
    candidates, in their order.  It does return whenever every candidate is a
    Manifold or an Omen market. *)
Theorem pick_markets_at_most_max_subsequence sv self markets :
  self ∈ deployable_agents sv →
  (Forall (λ market, class_of market ≠ OtherAgentMarket) markets →
   ∃ picked, result (pick_markets sv self markets) = Return picked)
  ∧ ∀ picked,
      result (pick_markets sv self markets) = Return picked →
      Z.of_nat (List.length picked) ≤ max_markets_per_run self
      ∧ picked `sublist_of` markets.
Proof.
  intros Hself. split.
  - exact (pick_markets_loop_returns sv self markets []).
  - intros picked Hpicked. split.
    + apply (pick_markets_length sv self markets picked); [|exact Hpicked].
      exact (deployable_agents_cap sv self Hself).
    + destruct (pick_markets_loop_sublist sv self markets [] picked Hpicked)
        as (new & -> & Hsub).
      exact Hsub.
Qed.

Lemma pick_markets_at_most_max_subsequence_witness :
  Sample.gpt4 ∈ deployable_agents Sample.services
  ∧ Z.of_nat (List.length [Sample.omen_eth]) ≤ max_markets_per_run Sample.gpt4
  ∧ [Sample.omen_eth]
      `sublist_of` [Sample.manifold_rain; Sample.omen_eth; Sample.omen_vague;
                    Sample.omen_btc; Sample.manifold_snow].
Proof.
  assert (Sample.gpt4 ∈ deployable_agents Sample.services) as Hself.
  { unfold deployable_agents, Sample.gpt4. rewrite !elem_of_cons. tauto. }
  split; [exact Hself|].
  refine (proj2 (pick_markets_at_most_max_subsequence Sample.services Sample.gpt4
                  [Sample.manifold_rain; Sample.omen_eth; Sample.omen_vague;
                   Sample.omen_btc; Sample.manifold_snow] Hself)
                [Sample.omen_eth] _).
  vm_compute. reflexivity.
Defined.

(** C3. A market whose question is in the set of questions betted on in the
    last 24 hours on its platform (the set [recently_betted] builds for it)
    is not among the markets [pick_markets] returns, whatever the agent's
    predictability oracle says. *)
Theorem pick_markets_excludes_recently_betted sv self markets market questions picked :
  result (recently_betted_questions sv market) = Return questions →
  question market ∈ questions →
  result (pick_markets sv self markets) = Return picked →
  market ∉ picked.
Proof.
  intros Hqs Hin Hpicked Hmarket.
  destruct (pick_markets_loop_not_recent sv self _ _ _ _ Hpicked Hmarket)
    as [Hnil|Hrecent].
  - by apply elem_of_nil in Hnil.
  - rewrite result_recently_betted, Hqs in Hrecent.
    injection Hrecent as Hrecent. by apply bool_decide_eq_false in Hrecent.
Qed.

Lemma pick_markets_excludes_recently_betted_witness :
  result (recently_betted_questions Sample.services Sample.omen_btc)
  = Return (list_to_set ["Will BTC close above 100k?"])
  ∧ question Sample.omen_btc ∈ (list_to_set ["Will BTC close above 100k?"] : gset string)
  ∧ is_predictable (agent Sample.gpt3) (question Sample.omen_btc) = true
  ∧ Sample.omen_btc ∉ [Sample.omen_eth; Sample.manifold_snow].
Proof.
  assert (question Sample.omen_btc
          ∈ (list_to_set ["Will BTC close above 100k?"] : gset string)) as Hin.
  { apply elem_of_list_to_set, list_elem_of_here. }
  split; [vm_compute; reflexivity|]. split; [exact Hin|].
  split; [vm_compute; reflexivity|].
  apply (pick_markets_excludes_recently_betted Sample.services Sample.gpt3
           [Sample.manifold_rain; Sample.omen_eth; Sample.omen_vague;
            Sample.omen_btc; Sample.manifold_snow]
           Sample.omen_btc (list_to_set ["Will BTC close above 100k?"])).
  - vm_compute. reflexivity.
  - exact Hin.
  - vm_compute. reflexivity.
Defined.

(** C7. On a market that is neither a Manifold nor an Omen market the
    recency test and [calculate_bet_amount] both end with the error of
    [should_not_happen]: no value is returned and no warning is logged.
    [pick_markets] does not catch it: a run that reaches such a market ends
    with the same error, and a run that returns had left the loop before
    the market. *)
Theorem unknown_market_class_fails_fast sv self answer market pre post :
  class_of market = OtherAgentMarket →
  recently_betted sv market = mkM [] (Raise (RuntimeError (Uknown_market market)))
  ∧ calculate_bet_amount sv answer market
    = mkM [] (Raise (RuntimeError (Unknown_market_type market)))
  ∧ result (pick_markets sv self (market :: post))
    = Raise (RuntimeError (Uknown_market market))
  ∧ ∀ picked,
      result (pick_markets sv self (pre ++ market :: post)) = Return picked →
      result (pick_markets sv self pre) = Return picked.
Proof.
  intros Hother. repeat split.
  - unfold recently_betted. by rewrite recently_betted_questions_other.
  - unfold calculate_bet_amount, amount_and_max_bet_amount. by rewrite Hother.
  - unfold pick_markets.
    rewrite result_pick_markets_loop_cons, result_recently_betted.
    by rewrite recently_betted_questions_other.
  - intros picked. exact (pick_markets_loop_unknown_not_reached sv self _ _ _ _ _ Hother).
Qed.

Lemma unknown_market_class_fails_fast_witness :
  recently_betted Sample.services Sample.polymarket
  = mkM [] (Raise (RuntimeError (Uknown_market Sample.polymarket)))
  ∧ calculate_bet_amount Sample.services Sample.yes Sample.polymarket
    = mkM [] (Raise (RuntimeError (Unknown_market_type Sample.polymarket)))
  ∧ result (pick_markets Sample.services Sample.gpt3
              (Sample.polymarket :: [Sample.omen_eth]))
    = Raise (RuntimeError (Uknown_market Sample.polymarket))
  ∧ ∀ picked,
      result (pick_markets Sample.services Sample.gpt3
                ([Sample.manifold_rain] ++ Sample.polymarket :: [Sample.omen_eth]))
      = Return picked →
      result (pick_markets Sample.services Sample.gpt3 [Sample.manifold_rain])
      = Return picked.
Proof.
  refine (unknown_market_class_fails_fast Sample.services Sample.gpt3 Sample.yes
            Sample.polymarket [Sample.manifold_rain] [Sample.omen_eth] _).
  reflexivity.
Defined.

(** ** Stake sizing *)

Lemma Qgtb_true x y : Qgtb x y = true ↔ (y < x)%Q.
Proof.
  unfold Qgtb. change (y < x)%Q with (x > y)%Q. rewrite Qgt_alt.
  destruct (x ?= y)%Q; split; congruence.
Qed.

Lemma Qgtb_false x y : Qgtb x y = false ↔ (x <= y)%Q.
Proof.
  unfold Qgtb. rewrite Qle_alt.
  destruct (x ?= y)%Q; split; congruence.
Qed.

Section Sizing.
Variable sv : Services.
Implicit Types (answer : Answer) (market : AgentMarket).

(** What the last [if] of [calculate_bet_amount] makes of a computed amount
    and its maximum. *)
Lemma calculate_bet_amount_of answer market amount max_bet_amount :
  amount_and_max_bet_amount sv answer market = mret (amount, max_bet_amount) →
  calculate_bet_amount sv answer market =
  if Qgtb amount max_bet_amount
  then mkM [Log WARNING
              (Calculated_amount_is_exceeding_our_limit
                 amount (currency market) max_bet_amount
                 (get_tiny_bet_amount market))]
           (Return (BetAmount.mk (BetAmount.amount (get_tiny_bet_amount market))
                                 (currency market)))
  else mkM [] (Return (BetAmount.mk amount (currency market))).
Proof.
  unfold calculate_bet_amount. intros ->.
  unfold mbind, mret, M_bind, M_ret. cbn.
  by destruct (Qgtb amount max_bet_amount).
Qed.

Lemma amount_and_max_bet_amount_Manifold answer market get_minimum_bet_to_win :
  class_of market = ManifoldAgentMarket get_minimum_bet_to_win →
  amount_and_max_bet_amount sv answer market
  = mret (get_minimum_bet_to_win (decision answer) 1%Q, 10.0%Q).
Proof. unfold amount_and_max_bet_amount. by intros ->. Qed.

Lemma amount_and_max_bet_amount_Omen answer market market_liquidity :
  class_of market = OmenAgentMarket market_liquidity →
  amount_and_max_bet_amount sv answer market
  = mret ((base_stake sv market
           * if Bool.eqb (decision answer) (majority market) then 0.75 else 1.25)%Q,
          if Qgtb market_liquidity 5 then 2.0%Q
          else if Qgtb market_liquidity 1 then 0.1%Q else 0%Q).
Proof.
  unfold amount_and_max_bet_amount, base_stake, majority. intros ->.
  by destruct (Bool.eqb _ _).
Qed.

Lemma amount_and_max_bet_amount_returns answer market :
  class_of market ≠ OtherAgentMarket →
  ∃ amount max_bet_amount,
    amount_and_max_bet_amount sv answer market = mret (amount, max_bet_amount).
Proof.
  destruct (class_of market) as [g|liq|] eqn:Hclass; [| |done]; intros _.
  - rewrite (amount_and_max_bet_amount_Manifold _ _ g Hclass). eauto.
  - rewrite (amount_and_max_bet_amount_Omen _ _ liq Hclass). eauto.
Qed.
End Sizing.

(** C1. On a Manifold or an Omen market [calculate_bet_amount] returns, in
    the currency of the market, either the computed amount, which is then at
    most the maximum of the market's platform and liquidity tier, with
    nothing logged; or, the computed amount being greater than that maximum,
    exactly the amount of the market's tiny bet, after one warning that
    carries the computed amount, the currency, the maximum and the tiny
    bet. *)
Theorem calculate_bet_amount_within_max_or_tiny sv answer market :
  class_of market ≠ OtherAgentMarket →
  ∃ amount max_bet_amount,
    amount_and_max_bet_amount sv answer market = mret (amount, max_bet_amount)
    ∧ (((amount <= max_bet_amount)%Q
        ∧ calculate_bet_amount sv answer market
          = mkM [] (Return (BetAmount.mk amount (currency market))))
       ∨ ((max_bet_amount < amount)%Q
          ∧ calculate_bet_amount sv answer market
            = mkM [Log WARNING
                     (Calculated_amount_is_exceeding_our_limit
                        amount (currency market) max_bet_amount
                        (get_tiny_bet_amount market))]
                  (Return (BetAmount.mk
                             (BetAmount.amount (get_tiny_bet_amount market))
                             (currency market))))).
Proof.
  intros Hknown.
  destruct (amount_and_max_bet_amount_returns sv answer market Hknown)
    as (amount & max_bet_amount & Heq).
  exists amount, max_bet_amount. split; [done|].
  rewrite (calculate_bet_amount_of sv _ _ _ _ Heq).
  destruct (Qgtb amount max_bet_amount) eqn:Hgt.
  - right. by apply Qgtb_true in Hgt.
  - left. by apply Qgtb_false in Hgt.
Qed.

Lemma calculate_bet_amount_within_max_or_tiny_witness :
  class_of Sample.manifold_snow ≠ OtherAgentMarket
  ∧ ∃ amount max_bet_amount,
      amount_and_max_bet_amount Sample.services Sample.no Sample.manifold_snow
      = mret (amount, max_bet_amount)
      ∧ (((amount <= max_bet_amount)%Q
          ∧ calculate_bet_amount Sample.services Sample.no Sample.manifold_snow
            = mkM [] (Return (BetAmount.mk amount (currency Sample.manifold_snow))))
         ∨ ((max_bet_amount < amount)%Q
            ∧ calculate_bet_amount Sample.services Sample.no Sample.manifold_snow
              = mkM [Log WARNING
                       (Calculated_amount_is_exceeding_our_limit
                          amount (currency Sample.manifold_snow) max_bet_amount
                          (get_tiny_bet_amount Sample.manifold_snow))]
                    (Return (BetAmount.mk
                               (BetAmount.amount
                                  (get_tiny_bet_amount Sample.manifold_snow))
                               (currency Sample.manifold_snow))))).
Proof.
  assert (class_of Sample.manifold_snow ≠ OtherAgentMarket) as Hknown by done.
  split; [exact Hknown|].
  exact (calculate_bet_amount_within_max_or_tiny
           Sample.services Sample.no Sample.manifold_snow Hknown).
Defined.

(** C5. The maximum that goes with the computed amount: on a Manifold
    market it is 10, and the amount is what [get_minimum_bet_to_win] gives
    for the decision and one unit to win; on an Omen market it is 2.0 above
    a liquidity of 5, 0.1 for a liquidity above 1 and up to 5, and 0 for a
    liquidity up to 1.  It is against this maximum that
    [calculate_bet_amount] compares the amount. *)
Theorem max_bet_amount_by_platform_and_liquidity sv answer market :
  (∀ get_minimum_bet_to_win,
     class_of market = ManifoldAgentMarket get_minimum_bet_to_win →
     amount_and_max_bet_amount sv answer market
     = mret (get_minimum_bet_to_win (decision answer) 1%Q, 10.0%Q))
  ∧ (∀ market_liquidity,
       class_of market = OmenAgentMarket market_liquidity →
       ∃ amount,
         ((5 < market_liquidity)%Q →
          amount_and_max_bet_amount sv answer market = mret (amount, 2.0%Q))
         ∧ ((1 < market_liquidity)%Q ∧ (market_liquidity <= 5)%Q →
            amount_and_max_bet_amount sv answer market = mret (amount, 0.1%Q))
         ∧ ((market_liquidity <= 1)%Q →
            amount_and_max_bet_amount sv answer market = mret (amount, 0%Q)))
  ∧ (∀ amount max_bet_amount,
       amount_and_max_bet_amount sv answer market = mret (amount, max_bet_amount) →
       result (calculate_bet_amount sv answer market)
       = Return (BetAmount.mk
                   (if Qgtb amount max_bet_amount
                    then BetAmount.amount (get_tiny_bet_amount market)
                    else amount)
                   (currency market))).
Proof.
  split; [|split].
  - intros g Hclass. exact (amount_and_max_bet_amount_Manifold sv _ _ g Hclass).
  - intros liq Hclass.
    rewrite (amount_and_max_bet_amount_Omen sv _ _ liq Hclass).
    eexists. split; [|split].
    + intros H5%Qgtb_true. by rewrite H5.
    + intros [H1%Qgtb_true H5%Qgtb_false]. by rewrite H5, H1.
    + intros H1. assert (liq <= 5)%Q as H5 by lra.
      apply Qgtb_false in H1, H5. by rewrite H5, H1.
  - intros amount max_bet_amount Heq.
    rewrite (calculate_bet_amount_of sv _ _ _ _ Heq).
    by destruct (Qgtb amount max_bet_amount).
Qed.

Lemma max_bet_amount_by_platform_and_liquidity_witness :
  amount_and_max_bet_amount Sample.services Sample.yes Sample.manifold_rain
  = mret (3%Q, 10.0%Q)
  ∧ amount_and_max_bet_amount Sample.services Sample.yes Sample.omen_lean_thin
    = mret ((base_stake Sample.services Sample.omen_lean_thin * 0.75)%Q, 0.1%Q)
  ∧ result (calculate_bet_amount Sample.services Sample.yes Sample.manifold_rain)
    = Return (BetAmount.mk 3 "Mana").
Proof.
  pose proof (max_bet_amount_by_platform_and_liquidity
                Sample.services Sample.yes Sample.manifold_rain)
    as (Hmanifold & _ & Hcompare).
  pose proof (max_bet_amount_by_platform_and_liquidity
                Sample.services Sample.yes Sample.omen_lean_thin)
    as (_ & Homen & _).
  split; [exact (Hmanifold _ eq_refl)|]. split.
  - destruct (Homen 3%Q eq_refl) as (amount & _ & Hmid & _).
    assert ((1 < 3)%Q ∧ (3 <= 5)%Q) as Htier by (split; reflexivity || discriminate).
    pose proof (Hmid Htier) as Heq. rewrite Heq. f_equal. f_equal.
    injection Heq as <-. reflexivity.
  - exact (Hcompare _ _ (Hmanifold _ eq_refl)).
Defined.

(** Below the liquidity of 5 the amount computed for an Omen market exceeds
    its maximum as soon as the base stake is at least 0.5. *)
Lemma Omen_amount_exceeds_low_max (base market_liquidity : Q) (agrees : bool) :
  (0.5 <= base)%Q →
  (market_liquidity <= 5)%Q →
  let amount := (base * if agrees then 0.75 else 1.25)%Q in
  let max_bet_amount :=
    if Qgtb market_liquidity 5 then 2.0%Q
    else if Qgtb market_liquidity 1 then 0.1%Q else 0%Q in
  (0.375 <= amount)%Q
  ∧ (max_bet_amount <= 0.1)%Q
  ∧ Qgtb amount max_bet_amount = true.
Proof.
  intros Hbase Hliq. cbn zeta.
  apply Qgtb_false in Hliq. rewrite Hliq.
  assert (0.375 <= base * (if agrees then 0.75 else 1.25))%Q as Hamount
    by (destruct agrees; lra).
  assert ((if Qgtb market_liquidity 1 then 0.1 else 0) <= 0.1)%Q as Hmax
    by (destruct (Qgtb market_liquidity 1); lra).
  split; [exact Hamount|]. split; [exact Hmax|].
  apply Qgtb_true. lra.
Qed.

(** C10. On an Omen market with a liquidity of at most 5, once the base
    stake is at least 0.5 (the lower end of the range it is stretched into),
    the computed amount is at least 0.375 and the maximum at most 0.1, so
    [calculate_bet_amount] logs the warning and returns the amount of the
    market's tiny bet. *)
Theorem omen_low_liquidity_bets_tiny sv answer market market_liquidity :
  class_of market = OmenAgentMarket market_liquidity →
  (market_liquidity <= 5)%Q →
  (0.5 <= base_stake sv market)%Q →
  ∃ amount max_bet_amount,
    amount_and_max_bet_amount sv answer market = mret (amount, max_bet_amount)
    ∧ (0.375 <= amount)%Q
    ∧ (max_bet_amount <= 0.1)%Q
    ∧ calculate_bet_amount sv answer market
      = mkM [Log WARNING
               (Calculated_amount_is_exceeding_our_limit
                  amount (currency market) max_bet_amount
                  (get_tiny_bet_amount market))]
            (Return (BetAmount.mk (BetAmount.amount (get_tiny_bet_amount market))
                                  (currency market))).
Proof.
  intros Hclass Hliq Hbase.
  pose proof (amount_and_max_bet_amount_Omen sv answer market _ Hclass) as Heq.
  destruct (Omen_amount_exceeds_low_max
              (base_stake sv market) market_liquidity
              (Bool.eqb (decision answer) (majority market)) Hbase Hliq)
    as (Hamount & Hmax & Hgt).
  eexists _, _. split; [exact Heq|].
  split; [exact Hamount|]. split; [exact Hmax|].
  rewrite (calculate_bet_amount_of sv _ _ _ _ Heq).
  by rewrite Hgt.
Qed.

Lemma omen_low_liquidity_bets_tiny_witness :
  (3 <= 5)%Q
  ∧ (0.5 <= base_stake Sample.services Sample.omen_lean_thin)%Q
  ∧ ∃ amount max_bet_amount,
      amount_and_max_bet_amount Sample.services Sample.yes Sample.omen_lean_thin
      = mret (amount, max_bet_amount)
      ∧ (0.375 <= amount)%Q
      ∧ (max_bet_amount <= 0.1)%Q
      ∧ calculate_bet_amount Sample.services Sample.yes Sample.omen_lean_thin
        = mkM [Log WARNING
                 (Calculated_amount_is_exceeding_our_limit
                    amount "xDai" max_bet_amount (BetAmount.mk 0.00001 "xDai"))]
              (Return (BetAmount.mk 0.00001 "xDai")).
Proof.
  assert (3 <= 5)%Q as Hliq by discriminate.
  assert (0.5 <= base_stake Sample.services Sample.omen_lean_thin)%Q as Hbase
    by discriminate.
  split; [exact Hliq|]. split; [exact Hbase|].
  exact (omen_low_liquidity_bets_tiny Sample.services Sample.yes
           Sample.omen_lean_thin 3 eq_refl Hliq Hbase).
Defined.

(** C4, as the code has it.  Two calls on one Omen market whose answers
    differ in the decision only, one siding with the majority and one
    against it, the base stake being between 0.5 and 1.0.  Above a liquidity
    of 5 the stakes are 0.75 and 1.25 times the base stake, so the first is
    strictly the smaller and they are in the ratio 0.75 to 1.25.  With a
    liquidity of at most 5 both calls return the amount of the tiny bet. *)
Theorem directional_bias_above_liquidity_5 sv market market_liquidity agree disagree :
  class_of market = OmenAgentMarket market_liquidity →
  (0.5 <= base_stake sv market)%Q → (base_stake sv market <= 1.0)%Q →
  decision agree = majority market →
  decision disagree = negb (majority market) →
  ((5 < market_liquidity)%Q →
   ∃ a d,
     calculate_bet_amount sv agree market
     = mkM [] (Return (BetAmount.mk a (currency market)))
     ∧ calculate_bet_amount sv disagree market
       = mkM [] (Return (BetAmount.mk d (currency market)))
     ∧ a = (base_stake sv market * 0.75)%Q
     ∧ d = (base_stake sv market * 1.25)%Q
     ∧ (a < d)%Q
     ∧ (a * 1.25 == d * 0.75)%Q)
  ∧ ((market_liquidity <= 5)%Q →
     result (calculate_bet_amount sv agree market)
     = Return (BetAmount.mk (BetAmount.amount (get_tiny_bet_amount market))
                            (currency market))
     ∧ result (calculate_bet_amount sv disagree market)
       = result (calculate_bet_amount sv agree market)).
Proof.
  intros Hclass Hlo Hhi Hagree Hdisagree. split.
  - intros Hliq%Qgtb_true.
    pose proof (amount_and_max_bet_amount_Omen sv agree market _ Hclass) as Ha.
    pose proof (amount_and_max_bet_amount_Omen sv disagree market _ Hclass) as Hd.
    rewrite Hliq in Ha, Hd. rewrite Hagree in Ha. rewrite Hdisagree in Hd.
    replace (Bool.eqb (majority market) (majority market)) with true in Ha
      by by destruct (majority market).
    replace (Bool.eqb (negb (majority market)) (majority market)) with false in Hd
      by by destruct (majority market).
    eexists _, _.
    rewrite (calculate_bet_amount_of sv _ _ _ _ Ha).
    rewrite (calculate_bet_amount_of sv _ _ _ _ Hd).
    assert (Qgtb (base_stake sv market * 0.75) 2.0 = false) as ->
      by (apply Qgtb_false; lra).
    assert (Qgtb (base_stake sv market * 1.25) 2.0 = false) as ->
      by (apply Qgtb_false; lra).
    repeat split; [lra | ring].
  - intros Hliq.
    pose proof (amount_and_max_bet_amount_Omen sv agree market _ Hclass) as Ha.
    pose proof (amount_and_max_bet_amount_Omen sv disagree market _ Hclass) as Hd.
    rewrite (calculate_bet_amount_of sv _ _ _ _ Ha).
    rewrite (calculate_bet_amount_of sv _ _ _ _ Hd).
    destruct (Omen_amount_exceeds_low_max
                (base_stake sv market) market_liquidity
                (Bool.eqb (decision agree) (majority market)) Hlo Hliq)
      as (_ & _ & ->).
    destruct (Omen_amount_exceeds_low_max
                (base_stake sv market) market_liquidity
                (Bool.eqb (decision disagree) (majority market)) Hlo Hliq)
      as (_ & _ & ->).
    done.
Qed.

Lemma directional_bias_above_liquidity_5_witness :
  (0.5 <= base_stake Sample.services Sample.omen_lean)%Q
  ∧ (base_stake Sample.services Sample.omen_lean <= 1.0)%Q
  ∧ decision Sample.yes = majority Sample.omen_lean
  ∧ decision Sample.no = negb (majority Sample.omen_lean)
  ∧ (5 < 10)%Q
  ∧ ∃ a d,
      calculate_bet_amount Sample.services Sample.yes Sample.omen_lean
      = mkM [] (Return (BetAmount.mk a "xDai"))
      ∧ calculate_bet_amount Sample.services Sample.no Sample.omen_lean
        = mkM [] (Return (BetAmount.mk d "xDai"))
      ∧ a = (base_stake Sample.services Sample.omen_lean * 0.75)%Q
      ∧ d = (base_stake Sample.services Sample.omen_lean * 1.25)%Q
      ∧ (a < d)%Q
      ∧ (a * 1.25 == d * 0.75)%Q.
Proof.
  assert (0.5 <= base_stake Sample.services Sample.omen_lean)%Q as Hlo
    by discriminate.
  assert (base_stake Sample.services Sample.omen_lean <= 1.0)%Q as Hhi
    by discriminate.
  assert (5 < 10)%Q as Hliq by reflexivity.
  repeat (split; [done|]).
  exact (proj1 (directional_bias_above_liquidity_5 Sample.services
                  Sample.omen_lean 10 Sample.yes Sample.no
                  eq_refl Hlo Hhi eq_refl eq_refl) Hliq).
Defined.

(** C4 as stated fails below the liquidity of 5: on a market that leans to
    yes, with a liquidity of 3, the call that sides with the majority and the
    call against it return the same amount, the tiny bet of 0.00001. *)
Lemma directional_bias_counterexample :
  class_of Sample.omen_lean_thin = OmenAgentMarket 3
  ∧ decision Sample.yes = majority Sample.omen_lean_thin
  ∧ decision Sample.no = negb (majority Sample.omen_lean_thin)
  ∧ ∃ a d,
      result (calculate_bet_amount Sample.services Sample.yes Sample.omen_lean_thin)
      = Return a
      ∧ result (calculate_bet_amount Sample.services Sample.no Sample.omen_lean_thin)
        = Return d
      ∧ ¬ (BetAmount.amount a < BetAmount.amount d)%Q.
Proof.
  repeat (split; [reflexivity|]).
  exists (BetAmount.mk 0.00001 "xDai"), (BetAmount.mk 0.00001 "xDai").
  repeat (split; [vm_compute; reflexivity|]).
  cbn. apply Qlt_irrefl.
Qed.

(** ** Answer resolution *)

(** C6. [answer_binary_market] asks the prediction oracle once, for the
    question of the market, and returns its [outcome_prediction] as it is:
    [None] exactly when the oracle gave none, which is logged at error level
    and raises nothing. *)
Theorem answer_binary_market_returns_outcome_prediction self market :
  let outcome := outcome_prediction (predict (agent self) (question market)) in
  result (answer_binary_market self market) = Return outcome
  ∧ (result (answer_binary_market self market) = Return None ↔ outcome = None)
  ∧ trace (answer_binary_market self market)
    = [ Call (Predict (question market));
        match outcome with
        | None => Log ERROR (Prediction_failed_for (question market))
        | Some answer =>
            Log INFO (Answering_with (question market) (decision answer))
        end ].
Proof.
  unfold answer_binary_market. run.
  destruct (outcome_prediction _) as [answer|]; run; cbn.
  - repeat split; congruence.
  - repeat split; congruence.
Qed.

(** ** Requests and diagnostics of a run of [pick_markets] *)

Section Run.
Variable sv : Services.
Variable self : DeployableTraderAgentER.

Lemma recently_betted_returns_known market recent :
  result (recently_betted sv market) = Return recent →
  class_of market ≠ OtherAgentMarket.
Proof.
  intros Hres Hother. rewrite result_recently_betted in Hres.
  by rewrite (recently_betted_questions_other sv market Hother) in Hres.
Qed.

(** One iteration that goes through fetches one history and starts with one
    "Looking" line; the count of the picked markets grows by at most one. *)
Lemma pick_markets_loop_fetches markets : ∀ picked out,
  result (pick_markets_loop sv self markets picked) = Return out →
  let tr := trace (pick_markets_loop sv self markets picked) in
  history_fetches tr = markets_evaluated tr
  ∧ (history_fetches tr ≤ List.length markets)%nat
  ∧ (List.length out ≤ List.length picked + history_fetches tr)%nat
  ∧ (Z.of_nat (List.length out) < max_markets_per_run self →
     history_fetches tr = List.length markets).
Proof.
  induction markets as [|market markets IH]; intros picked out.
  - cbn. intros [= <-]. repeat split; lia.
  - rewrite result_pick_markets_loop_cons, trace_pick_markets_loop_cons.
    destruct (result (recently_betted sv market)) as [[|]|e] eqn:Hrecent;
      [| |done].
    + pose proof (recently_betted_returns_known _ _ Hrecent) as Hknown.
      intros Hout. destruct (IH _ _ Hout) as (Heval & Hle & Hlen & Hall).
      cbn zeta.
      change (?e :: ?l ++ ?e' :: ?k) with ([e] ++ l ++ [e'] ++ k).
      rewrite !history_fetches_app, !markets_evaluated_app, trace_recently_betted.
      rewrite (history_fetches_recently_betted_questions sv market Hknown).
      rewrite markets_evaluated_recently_betted_questions.
      cbn [List.length]. change (history_fetches [_]) with 0%nat.
      change (markets_evaluated [Log INFO (Looking_if_we_recently_bet_on _)])
        with 1%nat.
      change (markets_evaluated [_]) with 0%nat.
      repeat split; first [lia | intros Hlt; specialize (Hall Hlt); lia].
    + pose proof (recently_betted_returns_known _ _ Hrecent) as Hknown.
      pose proof (length_picked_after self market picked) as Hafter.
      cbn zeta.
      change (?e :: ?l ++ ?e1 :: ?e2 :: ?k1 ++ ?k2)
        with ([e] ++ l ++ [e1; e2] ++ k1 ++ k2).
      rewrite !history_fetches_app, !markets_evaluated_app, trace_recently_betted.
      rewrite (history_fetches_recently_betted_questions sv market Hknown).
      rewrite markets_evaluated_recently_betted_questions.
      cbn [List.length]. change (history_fetches [_]) with 0%nat.
      change (history_fetches [_; _]) with 0%nat.
      change (markets_evaluated [Log INFO (Looking_if_we_recently_bet_on _)])
        with 1%nat.
      change (markets_evaluated [_; _]) with 0%nat.
      assert (history_fetches
                (if is_predictable (agent self) (question market)
                 then [Log INFO (Market_is_predictable (question market))]
                 else []) = 0%nat
              ∧ markets_evaluated
                  (if is_predictable (agent self) (question market)
                   then [Log INFO (Market_is_predictable (question market))]
                   else []) = 0%nat) as [-> ->].
      { by destruct (is_predictable (agent self) (question market)). }
      destruct (max_markets_per_run self <=? _) eqn:Hcap.
      * intros [= <-]. apply Z.leb_le in Hcap.
        change (history_fetches []) with 0%nat.
        change (markets_evaluated []) with 0%nat.
        repeat split; lia.
      * intros Hout. destruct (IH _ _ Hout) as (Heval & Hle & Hlen & Hall).
        repeat split; first [lia | intros Hlt; specialize (Hall Hlt); lia].
Qed.
End Run.

(** C8, as the code has it.  In a run of [pick_markets] that returns the
    history is fetched once for each market the loop evaluates, whatever the
    platforms: as many fetches as "Looking" lines, at least as many as
    markets picked, at most as many as candidates, and as many as candidates
    when fewer markets than [max_markets_per_run] were picked. *)
Theorem one_history_fetch_per_evaluated_market sv self markets picked :
  result (pick_markets sv self markets) = Return picked →
  let tr := trace (pick_markets sv self markets) in
  history_fetches tr = markets_evaluated tr
  ∧ (List.length picked ≤ history_fetches tr ≤ List.length markets)%nat
  ∧ (Z.of_nat (List.length picked) < max_markets_per_run self →
     history_fetches tr = List.length markets).
Proof.
  intros Hpicked.
  destruct (pick_markets_loop_fetches sv self markets [] picked Hpicked)
    as (Heval & Hle & Hlen & Hall).
  cbn zeta. unfold pick_markets. cbn [List.length] in Hlen.
  repeat split; [exact Heval | lia | exact Hle | exact Hall].
Qed.

Lemma one_history_fetch_per_evaluated_market_witness :
  history_fetches
    (trace (pick_markets Sample.services Sample.gpt3
              [Sample.omen_vague; Sample.omen_vague'; Sample.manifold_snow]))
  = 3%nat.
Proof.
  refine (proj2 (proj2 (one_history_fetch_per_evaluated_market
                          Sample.services Sample.gpt3
                          [Sample.omen_vague; Sample.omen_vague'; Sample.manifold_snow]
                          [Sample.manifold_snow] _)) _).
  - vm_compute. reflexivity.
  - reflexivity.
Defined.

(** C8 as stated fails: two Omen candidates, neither predictable, are one
    platform, and the run fetches the Omen history twice. *)
Lemma history_fetch_per_platform_counterexample :
  platforms [Sample.omen_vague; Sample.omen_vague'] = 1%nat
  ∧ history_fetches
      (trace (pick_markets Sample.services Sample.gpt3
                [Sample.omen_vague; Sample.omen_vague']))
    = 2%nat
  ∧ ¬ (history_fetches
         (trace (pick_markets Sample.services Sample.gpt3
                   [Sample.omen_vague; Sample.omen_vague']))
       ≤ platforms [Sample.omen_vague; Sample.omen_vague'])%nat.
Proof.
  assert (history_fetches
            (trace (pick_markets Sample.services Sample.gpt3
                      [Sample.omen_vague; Sample.omen_vague'])) = 2%nat) as Hfetch
    by (vm_compute; reflexivity).
  split; [reflexivity|]. split; [exact Hfetch|].
  rewrite Hfetch. cbn. lia.
Qed.

(** C9 on the code.  A candidate that passes the recency test and that the
    oracle does not judge predictable is left out with no line that says so:
    the run logs the two lines that precede the test of predictability and
    nothing after it.  The other way to be left out does log its reason: a
    recently betted candidate gets "Recently betted, skipping." *)
Theorem unpredictable_market_dropped_without_log_line sv self market :
  result (recently_betted sv market) = Return false →
  is_predictable (agent self) (question market) = false →
  result (pick_markets sv self [market]) = Return []
  ∧ log_lines (trace (pick_markets sv self [market]))
    = [ (INFO, Looking_if_we_recently_bet_on (question market));
        (INFO, Verifying_market_predictability_for (question market)) ].
Proof.
  intros Hrecent Hpredictable. unfold pick_markets.
  rewrite result_pick_markets_loop_cons, trace_pick_markets_loop_cons.
  rewrite Hrecent. unfold picked_after. rewrite Hpredictable.
  assert (log_lines (trace (recently_betted sv market)) = []) as Hcalls.
  { rewrite trace_recently_betted. unfold recently_betted_questions.
    destruct (class_of market); [| |done].
    - run. change (mapM _ ?l) with (mapM (manifold_question sv) l).
      rewrite trace_bind, result_mapM_resolve, trace_mapM_resolve.
      cbn. rewrite app_nil_r.
      induction (get_manifold_bets _ _ _ _) as [|b bets IH]; [done|]. exact IH.
    - by run. }
  destruct (max_markets_per_run self <=? _); cbn [result trace];
    (split; [done|]);
    change (?e :: ?l ++ ?k) with ([e] ++ l ++ k);
    unfold log_lines in *; rewrite !omap_app, Hcalls; done.
Qed.

Lemma unpredictable_market_dropped_without_log_line_witness :
  result (recently_betted Sample.services Sample.omen_vague) = Return false
  ∧ is_predictable (agent Sample.gpt3) (question Sample.omen_vague) = false
  ∧ pick_markets Sample.services Sample.gpt3 [Sample.omen_vague]
    = mkM [ Log INFO (Looking_if_we_recently_bet_on "Who wins?");
            Call (OmenGetBets "0xA11CE" 1699913600);
            Log INFO (Verifying_market_predictability_for "Who wins?");
            Call (IsPredictable "Who wins?") ]
          (Return [])
  ∧ log_lines (trace (pick_markets Sample.services Sample.gpt3 [Sample.omen_vague]))
    = [ (INFO, Looking_if_we_recently_bet_on "Who wins?");
        (INFO, Verifying_market_predictability_for "Who wins?") ].
Proof.
  assert (result (recently_betted Sample.services Sample.omen_vague) = Return false)
    as Hrecent by (vm_compute; reflexivity).
  split; [exact Hrecent|]. split; [reflexivity|].
  split; [vm_compute; reflexivity|].
  exact (proj2 (unpredictable_market_dropped_without_log_line
                  Sample.services Sample.gpt3 Sample.omen_vague Hrecent eq_refl)).
Defined.

(** ** Further properties of the recency test *)

Section RecencyTest.
Variable sv : Services.

Lemma M_eq {A} (m1 m2 : M A) :
  trace m1 = trace m2 → result m1 = result m2 → m1 = m2.
Proof. destruct m1, m2. cbn. by intros -> ->. Qed.

Lemma recently_betted_questions_Manifold market get_minimum_bet_to_win :
  class_of market = ManifoldAgentMarket get_minimum_bet_to_win →
  recently_betted_questions sv market
  = mkM (Call (GetAuthenticatedUser (manifold_api_key sv))
         :: Call (GetManifoldBets
                    (id (get_authenticated_user sv (manifold_api_key sv)))
                    (utcnow sv - 86400) None)
         :: ((λ b, Call (GetManifoldMarket (contractId b)))
               <$> manifold_bets_24h sv))
        (Return (list_to_set
                   ((λ b, ManifoldMarket.question
                            (get_manifold_market sv (contractId b)))
                      <$> manifold_bets_24h sv))).
Proof.
  intros Hclass. unfold recently_betted_questions. rewrite Hclass.
  change (utcnow sv - timedelta_hours 24) with (utcnow sv - 86400).
  fold (manifold_bets_24h sv).
  apply M_eq.
  - run. change (mapM _ ?l) with (mapM (manifold_question sv) l).
    rewrite trace_bind, result_mapM_resolve, trace_mapM_resolve.
    cbn. by rewrite app_nil_r.
  - run. change (mapM _ ?l) with (mapM (manifold_question sv) l).
    by rewrite result_bind, result_mapM_resolve.
Qed.

Lemma recently_betted_questions_Omen market market_liquidity :
  class_of market = OmenAgentMarket market_liquidity →
  recently_betted_questions sv market
  = mkM [Call (OmenGetBets (public_key sv) (utcnow sv - 86400))]
        (Return (list_to_set (title <$> omen_bets_24h sv))).
Proof.
  intros Hclass. unfold recently_betted_questions. by rewrite Hclass.
Qed.

Lemma recently_betted_of_questions market tr questions :
  recently_betted_questions sv market = mkM tr (Return questions) →
  recently_betted sv market
  = mkM tr (Return (bool_decide (question market ∈ questions))).
Proof.
  intros Heq. apply M_eq.
  - by rewrite trace_recently_betted, Heq.
  - by rewrite result_recently_betted, Heq.
Qed.
End RecencyTest.

(** X1. The recency test answers [True] exactly when a bet of the last 24
    hours (86400 seconds before [utcnow]) on the platform of the market has
    the question of the market, character for character: for an Omen market
    a bet whose title is the question, for a Manifold market a bet whose
    market, looked up by [contractId], has the question.  The bets of the
    other platform play no part. *)
Theorem recently_betted_true_iff sv market :
  (∀ market_liquidity,
     class_of market = OmenAgentMarket market_liquidity →
     (result (recently_betted sv market) = Return true
      ↔ ∃ b, b ∈ omen_bets_24h sv ∧ title b = question market)
     ∧ (result (recently_betted sv market) = Return false
        ↔ ∀ b, b ∈ omen_bets_24h sv → title b ≠ question market))
  ∧ (∀ get_minimum_bet_to_win,
       class_of market = ManifoldAgentMarket get_minimum_bet_to_win →
       (result (recently_betted sv market) = Return true
        ↔ ∃ b, b ∈ manifold_bets_24h sv
               ∧ ManifoldMarket.question (get_manifold_market sv (contractId b))
                 = question market)
       ∧ (result (recently_betted sv market) = Return false
          ↔ ∀ b, b ∈ manifold_bets_24h sv →
                 ManifoldMarket.question (get_manifold_market sv (contractId b))
                 ≠ question market)).
Proof.
  split.
  - intros liq Hclass.
    rewrite (recently_betted_of_questions sv _ _ _
               (recently_betted_questions_Omen sv market liq Hclass)).
    cbn [result]. split.
    + split.
      * intros [= E]. apply bool_decide_eq_true in E.
        rewrite elem_of_list_to_set, list_elem_of_fmap in E.
        destruct E as (b & ? & ?). eauto.
      * intros (b & Hb & Hq). f_equal. apply bool_decide_eq_true.
        rewrite elem_of_list_to_set, list_elem_of_fmap. eauto.
    + split.
      * intros [= E]. apply bool_decide_eq_false in E.
        intros b Hb Htitle. apply E.
        rewrite elem_of_list_to_set, list_elem_of_fmap. eauto.
      * intros Hnone. f_equal. apply bool_decide_eq_false.
        rewrite elem_of_list_to_set, list_elem_of_fmap.
        intros (b & ? & ?). by apply (Hnone b).
  - intros g Hclass.
    rewrite (recently_betted_of_questions sv _ _ _
               (recently_betted_questions_Manifold sv market g Hclass)).
    cbn [result]. split.
    + split.
      * intros [= E]. apply bool_decide_eq_true in E.
        rewrite elem_of_list_to_set, list_elem_of_fmap in E.
        destruct E as (b & ? & ?). eauto.
      * intros (b & Hb & Hq). f_equal. apply bool_decide_eq_true.
        rewrite elem_of_list_to_set, list_elem_of_fmap. eauto.
    + split.
      * intros [= E]. apply bool_decide_eq_false in E.
        intros b Hb Hq. apply E.
        rewrite elem_of_list_to_set, list_elem_of_fmap. eauto.
      * intros Hnone. f_equal. apply bool_decide_eq_false.
        rewrite elem_of_list_to_set, list_elem_of_fmap.
        intros (b & ? & ?). by apply (Hnone b).
Qed.

Lemma recently_betted_true_iff_witness :
  result (recently_betted Sample.services Sample.omen_btc) = Return true.
Proof.
  refine (proj2 (proj1 (proj1 (recently_betted_true_iff
                                 Sample.services Sample.omen_btc)
                          10%Q eq_refl)) _).
  exists {| title := "Will BTC close above 100k?" |}.
  split; [apply list_elem_of_here | reflexivity].
Defined.

(** ** Counting the events of a run *)

Lemma count_events_app P tr1 tr2 :
  count_events P (tr1 ++ tr2) = (count_events P tr1 + count_events P tr2)%nat.
Proof. unfold count_events. by rewrite List.filter_app, List.length_app. Qed.

Lemma count_events_cons P e tr :
  count_events P (e :: tr)
  = ((if P e then 1 else 0) + count_events P tr)%nat.
Proof. unfold count_events. cbn. by destruct (P e). Qed.

Lemma count_events_calls P (f : ManifoldBet → request) bets :
  (∀ b, P (Call (f b)) = false) →
  count_events P ((λ b, Call (f b)) <$> bets) = 0%nat.
Proof.
  intros HP. induction bets as [|b bets IH]; [done|].
  cbn [fmap list_fmap]. by rewrite count_events_cons, HP, IH.
Qed.

Section Counting.
Variable sv : Services.

(** The recency test makes history requests only and logs nothing. *)
Lemma count_events_recently_betted P market :
  (∀ e, is_history_request e = true → P e = false) →
  count_events P (trace (recently_betted sv market)) = 0%nat.
Proof.
  intros HP. rewrite trace_recently_betted.
  destruct (class_of market) as [g|liq|] eqn:Hclass.
  - rewrite (recently_betted_questions_Manifold sv market g Hclass). cbn [trace].
    rewrite !count_events_cons, !HP by done.
    rewrite (count_events_calls P (λ b, GetManifoldMarket (contractId b))); [done|].
    intros b. by apply HP.
  - rewrite (recently_betted_questions_Omen sv market liq Hclass). cbn [trace].
    by rewrite count_events_cons, HP.
  - by rewrite (recently_betted_questions_other sv market Hclass).
Qed.

(** On a Manifold market it looks up one market for each bet of the history. *)
Lemma market_lookups_recently_betted market :
  count_events is_market_lookup (trace (recently_betted sv market))
  = if is_Manifold market then List.length (manifold_bets_24h sv) else 0%nat.
Proof.
  rewrite trace_recently_betted. unfold is_Manifold.
  destruct (class_of market) as [g|liq|] eqn:Hclass.
  - rewrite (recently_betted_questions_Manifold sv market g Hclass). cbn [trace].
    rewrite !count_events_cons. cbn [is_market_lookup].
    induction (manifold_bets_24h sv) as [|b bets IH]; [done|].
    cbn [fmap list_fmap List.length]. rewrite count_events_cons. cbn in *. lia.
  - by rewrite (recently_betted_questions_Omen sv market liq Hclass).
  - by rewrite (recently_betted_questions_other sv market Hclass).
Qed.

Lemma elem_of_trace_recently_betted e market :
  e ∈ trace (recently_betted sv market) → is_history_request e = true.
Proof.
  rewrite trace_recently_betted.
  destruct (class_of market) as [g|liq|] eqn:Hclass.
  - rewrite (recently_betted_questions_Manifold sv market g Hclass). cbn [trace].
    rewrite !elem_of_cons, list_elem_of_fmap.
    intros [->|[->|(b & -> & _)]]; done.
  - rewrite (recently_betted_questions_Omen sv market liq Hclass). cbn [trace].
    rewrite list_elem_of_singleton. by intros ->.
  - rewrite (recently_betted_questions_other sv market Hclass). cbn [trace].
    by rewrite elem_of_nil.
Qed.
End Counting.

(** ** Further properties of the loop of [pick_markets] *)

Section Selection.
Variable sv : Services.
Variable self : DeployableTraderAgentER.

Abbreviation loop' := (pick_markets_loop sv self).
Abbreviation cap' := (max_markets_per_run self).

Lemma passes_true market :
  passes sv self market = true
  ↔ result (recently_betted sv market) = Return false
    ∧ is_predictable (agent self) (question market) = true.
Proof.
  unfold passes.
  destruct (result (recently_betted sv market)) as [[|]|e];
    intuition congruence.
Qed.

Lemma elem_of_picked_after x market picked :
  x ∈ picked_after self market picked →
  x ∈ picked
  ∨ (x = market ∧ is_predictable (agent self) (question market) = true).
Proof.
  unfold picked_after.
  destruct (is_predictable (agent self) (question market)); [|by left].
  rewrite elem_of_app, list_elem_of_singleton. intuition.
Qed.

(** What the loop appended had passed both tests. *)
Lemma pick_markets_loop_passes markets : ∀ picked out market,
  result (loop' markets picked) = Return out →
  market ∈ out →
  market ∈ picked ∨ (market ∈ markets ∧ passes sv self market = true).
Proof.
  induction markets as [|m markets IH]; intros picked out market.
  - cbn. intros [= <-]. by left.
  - rewrite result_pick_markets_loop_cons.
    destruct (result (recently_betted sv m)) as [[|]|e] eqn:Hm; [| |done].
    + intros Hout Hin. destruct (IH _ _ _ Hout Hin) as [?|[? ?]]; [by left|].
      right. split; [by apply list_elem_of_further | done].
    + assert (∀ x, x ∈ picked_after self m picked →
                   x ∈ picked ∨ (x ∈ m :: markets ∧ passes sv self x = true))
        as Hafter.
      { intros x [?|[-> Hp]]%elem_of_picked_after; [by left|]. right.
        split; [apply list_elem_of_here|]. by apply passes_true. }
      destruct (cap' <=? _).
      * intros [= <-]. apply Hafter.
      * intros Hout Hin. destruct (IH _ _ _ Hout Hin) as [?|[? ?]].
        -- by apply Hafter.
        -- right. split; [by apply list_elem_of_further | done].
Qed.

(** Below the cap at its start, the loop returns the list it was given
    followed by the first passing candidates, as many as the cap allows. *)
Lemma pick_markets_loop_take markets : ∀ picked out,
  Z.of_nat (List.length picked) < cap' →
  result (loop' markets picked) = Return out →
  out = picked ++ take (Z.to_nat cap' - List.length picked)
                       (List.filter (passes sv self) markets).
Proof.
  induction markets as [|m markets IH]; intros picked out Hlt.
  - cbn. intros [= <-]. by rewrite take_nil, app_nil_r.
  - rewrite result_pick_markets_loop_cons. cbn [List.filter]. unfold passes at 1.
    destruct (result (recently_betted sv m)) as [[|]|e]; [by apply IH| |done].
    unfold picked_after.
    destruct (is_predictable (agent self) (question m)).
    + rewrite List.length_app. cbn [List.length].
      destruct (Z.to_nat cap' - List.length picked)%nat as [|k] eqn:Hk; [lia|].
      cbn [take]. destruct (cap' <=? _) eqn:Hcap.
      * intros [= <-]. apply Z.leb_le in Hcap.
        assert (k = 0%nat) as -> by lia. by rewrite take_0.
      * apply Z.leb_gt in Hcap. intros Hout.
        rewrite (IH (picked ++ [m]) out); [| |exact Hout].
        -- rewrite List.length_app. cbn [List.length].
           replace (Z.to_nat cap' - (List.length picked + 1))%nat with k by lia.
           by rewrite <- app_assoc.
        -- rewrite List.length_app. cbn [List.length]. lia.
    + destruct (cap' <=? _) eqn:Hcap; [apply Z.leb_le in Hcap; lia|].
      by apply IH.
Qed.


(** Once the cap is reached the loop has ended: candidates that follow
    change neither the result nor the trace. *)
Lemma pick_markets_loop_stops pre post : ∀ picked out,
  Z.of_nat (List.length picked) < cap' →
  result (loop' pre picked) = Return out →
  cap' ≤ Z.of_nat (List.length out) →
  loop' (pre ++ post) picked = loop' pre picked.
Proof.
  induction pre as [|m pre IH]; intros picked out Hlt.
  - cbn. intros [= <-]. lia.
  - intros Hout Hfull. rewrite <- app_comm_cons.
    rewrite result_pick_markets_loop_cons in Hout.
    apply M_eq.
    + rewrite !trace_pick_markets_loop_cons.
      destruct (result (recently_betted sv m)) as [[|]|e]; [| |done].
      * by rewrite (IH picked out Hlt Hout Hfull).
      * destruct (cap' <=? _) eqn:Hcap; [done|]. apply Z.leb_gt in Hcap.
        by rewrite (IH _ out Hcap Hout Hfull).
    + rewrite !result_pick_markets_loop_cons.
      destruct (result (recently_betted sv m)) as [[|]|e]; [| |done].
      * by rewrite (IH picked out Hlt Hout Hfull).
      * destruct (cap' <=? _) eqn:Hcap; [done|]. apply Z.leb_gt in Hcap.
        by rewrite (IH _ out Hcap Hout Hfull).
Qed.

(** The oracle is asked about a question only after the recency test of a
    candidate with that question answered [False]. *)
Lemma pick_markets_loop_asks markets : ∀ picked q,
  Call (IsPredictable q) ∈ trace (loop' markets picked) →
  ∃ market, market ∈ markets ∧ question market = q
            ∧ result (recently_betted sv market) = Return false.
Proof.
  induction markets as [|m markets IH]; intros picked q.
  - cbn. by rewrite elem_of_nil.
  - rewrite trace_pick_markets_loop_cons, elem_of_cons, elem_of_app.
    intros [?|[Hrb|Hrest]]; [done| |].
    { by apply elem_of_trace_recently_betted in Hrb. }
    destruct (result (recently_betted sv m)) as [[|]|e] eqn:Hm.
    + apply elem_of_cons in Hrest as [?|Hrest]; [done|].
      destruct (IH _ _ Hrest) as (x & ? & ? & ?).
      exists x. split; [by apply list_elem_of_further | done].
    + rewrite !elem_of_cons, elem_of_app in Hrest.
      destruct Hrest as [?|[[= ->]|[Hline|Hrest]]]; [done| | |].
      * exists m. split; [apply list_elem_of_here | done].
      * destruct (is_predictable _ _); [|by apply elem_of_nil in Hline].
        by apply list_elem_of_singleton in Hline.
      * destruct (cap' <=? _); [by apply elem_of_nil in Hrest|].
        destruct (IH _ _ Hrest) as (x & ? & ? & ?).
        exists x. split; [by apply list_elem_of_further | done].
    + by apply elem_of_nil in Hrest.
Qed.
End Selection.

Section SelectionCounts.
Variable sv : Services.
Variable self : DeployableTraderAgentER.

Abbreviation loop'' := (pick_markets_loop sv self).

Lemma count_events_loop_cons P market markets picked :
  count_events P (trace (loop'' (market :: markets) picked))
  = ((if P (Log INFO (Looking_if_we_recently_bet_on (question market)))
      then 1 else 0)
     + count_events P (trace (recently_betted sv market))
     + match result (recently_betted sv market) with
       | Raise _ => 0
       | Return true =>
           (if P (Log INFO Recently_betted_skipping) then 1 else 0)
           + count_events P (trace (loop'' markets picked))
       | Return false =>
           (if P (Log INFO (Verifying_market_predictability_for (question market)))
            then 1 else 0)
           + (if P (Call (IsPredictable (question market))) then 1 else 0)
           + (if is_predictable (agent self) (question market)
              then if P (Log INFO (Market_is_predictable (question market)))
                   then 1 else 0
              else 0)
           + (if (max_markets_per_run self
                  <=? Z.of_nat (List.length (picked_after self market picked)))%Z
              then 0
              else count_events P
                     (trace (loop'' markets (picked_after self market picked))))
       end)%nat.
Proof.
  rewrite trace_pick_markets_loop_cons, count_events_cons, count_events_app.
  destruct (result (recently_betted sv market)) as [[|]|e].
  - rewrite count_events_cons. lia.
  - rewrite !count_events_cons, count_events_app.
    destruct (is_predictable (agent self) (question market));
      destruct (max_markets_per_run self <=? _);
      rewrite ?count_events_cons; cbn [count_events List.filter List.length]; lia.
  - cbn [count_events List.filter List.length]. lia.
Qed.

(** In a run that returns every iteration either skips or asks the oracle,
    and the list grows by one with every "is predictable" line. *)
Lemma pick_markets_loop_accounts markets : ∀ picked out,
  result (loop'' markets picked) = Return out →
  let tr := trace (loop'' markets picked) in
  count_events is_looking tr
  = (count_events is_skipping tr + count_events is_predictability_request tr)%nat
  ∧ List.length out
    = (List.length picked + count_events is_predictable_line tr)%nat.
Proof.
  induction markets as [|market markets IH]; intros picked out.
  - cbn. intros [= <-]. split; [done | lia].
  - rewrite result_pick_markets_loop_cons. cbn zeta.
    rewrite !count_events_loop_cons.
    rewrite !(count_events_recently_betted sv _ market)
      by (by intros [lvl msg|[]]).
    cbn [is_looking is_skipping is_predictability_request is_predictable_line].
    destruct (result (recently_betted sv market)) as [[|]|e]; [| |done].
    + intros Hout. destruct (IH _ _ Hout) as [Hiter Hlen]. lia.
    + unfold picked_after.
      destruct (is_predictable (agent self) (question market));
        destruct (max_markets_per_run self <=? _).
      * intros [= <-]. rewrite List.length_app. cbn. lia.
      * intros Hout. destruct (IH _ _ Hout) as [Hiter Hlen].
        rewrite List.length_app in Hlen. cbn in Hlen. lia.
      * intros [= <-]. lia.
      * intros Hout. destruct (IH _ _ Hout) as [Hiter Hlen]. lia.
Qed.

(** Among Manifold candidates every iteration looks up the market of each
    bet of the history. *)
Lemma pick_markets_loop_lookups markets : ∀ picked,
  Forall (λ market, is_Manifold market = true) markets →
  let tr := trace (loop'' markets picked) in
  count_events is_market_lookup tr
  = (count_events is_looking tr * List.length (manifold_bets_24h sv))%nat.
Proof.
  induction markets as [|market markets IH]; intros picked Hall; [done|].
  apply Forall_cons in Hall as [Hm Hall]. cbn zeta.
  rewrite !count_events_loop_cons, market_lookups_recently_betted, Hm.
  rewrite (count_events_recently_betted sv is_looking market)
    by (by intros [lvl msg|[]]).
  cbn [is_looking is_market_lookup].
  destruct (result (recently_betted sv market)) as [[|]|e].
  - rewrite (IH picked Hall). lia.
  - destruct (is_predictable (agent self) (question market));
      destruct (max_markets_per_run self <=? _);
      rewrite ?(IH _ Hall); lia.
  - lia.
Qed.
End SelectionCounts.

(** ** Further properties of [pick_markets] *)

(** X2. Every market [pick_markets] returns is one of the candidates, is a
    Manifold or an Omen market, was not recently betted and was judged
    predictable by the oracle of the agent. *)
Theorem picked_markets_passed_both_tests sv self markets picked market :
  result (pick_markets sv self markets) = Return picked →
  market ∈ picked →
  market ∈ markets
  ∧ class_of market ≠ OtherAgentMarket
  ∧ result (recently_betted sv market) = Return false
  ∧ is_predictable (agent self) (question market) = true.
Proof.
  intros Hpicked Hin.
  destruct (pick_markets_loop_passes sv self markets [] picked market Hpicked Hin)
    as [Hnil|[Hcand Hpass]].
  - by apply elem_of_nil in Hnil.
  - apply passes_true in Hpass as [Hrecent Hpredictable].
    split; [exact Hcand|]. split; [|done].
    exact (recently_betted_returns_known sv market false Hrecent).
Qed.

Lemma picked_markets_passed_both_tests_witness :
  Sample.manifold_snow
    ∈ [Sample.manifold_rain; Sample.omen_eth; Sample.omen_vague;
       Sample.omen_btc; Sample.manifold_snow]
  ∧ class_of Sample.manifold_snow ≠ OtherAgentMarket
  ∧ result (recently_betted Sample.services Sample.manifold_snow) = Return false
  ∧ is_predictable (agent Sample.gpt3) (question Sample.manifold_snow) = true.
Proof.
  refine (picked_markets_passed_both_tests Sample.services Sample.gpt3
            [Sample.manifold_rain; Sample.omen_eth; Sample.omen_vague;
             Sample.omen_btc; Sample.manifold_snow]
            [Sample.omen_eth; Sample.manifold_snow] Sample.manifold_snow _ _).
  - vm_compute. reflexivity.
  - apply list_elem_of_further, list_elem_of_here.
Defined.

(** X3. With a cap of at least one, what [pick_markets] returns is exactly
    the first [max_markets_per_run] candidates that pass both tests: no
    passing candidate is left out before the cap is reached. *)
Theorem pick_markets_first_passing sv self markets picked :
  1 ≤ max_markets_per_run self →
  result (pick_markets sv self markets) = Return picked →
  picked = take (Z.to_nat (max_markets_per_run self))
                (List.filter (passes sv self) markets).
Proof.
  intros Hcap Hpicked.
  assert (Z.of_nat (List.length (@nil AgentMarket)) < max_markets_per_run self)
    as Hlt by (cbn; lia).
  rewrite (pick_markets_loop_take sv self markets [] picked Hlt Hpicked).
  cbn [List.length app]. by rewrite Nat.sub_0_r.
Qed.

Lemma pick_markets_first_passing_witness :
  [Sample.omen_eth]
  = take (Z.to_nat (max_markets_per_run Sample.gpt4))
         (List.filter (passes Sample.services Sample.gpt4)
            [Sample.manifold_rain; Sample.omen_eth; Sample.omen_vague;
             Sample.omen_btc; Sample.manifold_snow]).
Proof.
  refine (pick_markets_first_passing Sample.services Sample.gpt4
            [Sample.manifold_rain; Sample.omen_eth; Sample.omen_vague;
             Sample.omen_btc; Sample.manifold_snow] [Sample.omen_eth] _ _).
  - cbn. lia.
  - vm_compute. reflexivity.
Defined.

(** X4. With a cap of at least one, once a run has picked as many markets
    as the cap, the candidates that follow are not looked at: with or
    without them the run returns the same markets and leaves the same trace
    of requests and log lines. *)
Theorem pick_markets_stops_at_cap sv self pre post picked :
  1 ≤ max_markets_per_run self →
  result (pick_markets sv self pre) = Return picked →
  max_markets_per_run self ≤ Z.of_nat (List.length picked) →
  pick_markets sv self (pre ++ post) = pick_markets sv self pre.
Proof.
  intros Hcap Hpicked Hfull.
  assert (Z.of_nat (List.length (@nil AgentMarket)) < max_markets_per_run self)
    as Hlt by (cbn; lia).
  exact (pick_markets_loop_stops sv self pre post [] picked Hlt Hpicked Hfull).
Qed.

Lemma pick_markets_stops_at_cap_witness :
  pick_markets Sample.services Sample.gpt4
    ([Sample.manifold_rain; Sample.omen_eth]
     ++ [Sample.polymarket; Sample.omen_btc; Sample.manifold_snow])
  = pick_markets Sample.services Sample.gpt4
      [Sample.manifold_rain; Sample.omen_eth].
Proof.
  refine (pick_markets_stops_at_cap Sample.services Sample.gpt4
            [Sample.manifold_rain; Sample.omen_eth]
            [Sample.polymarket; Sample.omen_btc; Sample.manifold_snow]
            [Sample.omen_eth] _ _ _).
  - cbn. lia.
  - vm_compute. reflexivity.
  - cbn. lia.
Defined.

(** X5. [pick_markets] asks the predictability oracle about a question only
    for a candidate with that question whose recency test answered [False]:
    no oracle request is spent on a recently betted market. *)
Theorem predictability_asked_only_when_not_recent sv self markets q :
  Call (IsPredictable q) ∈ trace (pick_markets sv self markets) →
  ∃ market, market ∈ markets ∧ question market = q
            ∧ result (recently_betted sv market) = Return false.
Proof.
  intros Hasked. unfold pick_markets in Hasked.
  destruct (pick_markets_loop_asks sv self markets [] q Hasked)
    as (market & Hcand & Hq & Hrecent).
  exists market. by repeat split.
Qed.

Lemma predictability_asked_only_when_not_recent_witness :
  ∃ market, market ∈ [Sample.omen_btc; Sample.omen_eth]
            ∧ question market = "Will ETH close above 4000?"
            ∧ result (recently_betted Sample.services market) = Return false.
Proof.
  refine (predictability_asked_only_when_not_recent Sample.services Sample.gpt4
            [Sample.omen_btc; Sample.omen_eth] "Will ETH close above 4000?" _).
  assert (trace (pick_markets Sample.services Sample.gpt4
                   [Sample.omen_btc; Sample.omen_eth])
          = [ Log INFO (Looking_if_we_recently_bet_on "Will BTC close above 100k?");
              Call (OmenGetBets "0xA11CE" 1699913600);
              Log INFO Recently_betted_skipping;
              Log INFO (Looking_if_we_recently_bet_on "Will ETH close above 4000?");
              Call (OmenGetBets "0xA11CE" 1699913600);
              Log INFO (Verifying_market_predictability_for
                          "Will ETH close above 4000?");
              Call (IsPredictable "Will ETH close above 4000?");
              Log INFO (Market_is_predictable "Will ETH close above 4000?") ])
    as -> by (vm_compute; reflexivity).
  do 6 apply list_elem_of_further. apply list_elem_of_here.
Defined.



(** X7. In a run of [pick_markets] that returns, every market the loop
    looked at was either skipped as recently betted or put to the oracle,
    and the number of markets returned is the number of "is predictable"
    lines logged. *)
Theorem pick_markets_log_accounts sv self markets picked :
  result (pick_markets sv self markets) = Return picked →
  let tr := trace (pick_markets sv self markets) in
  markets_evaluated tr
  = (count_events is_skipping tr + count_events is_predictability_request tr)%nat
  ∧ List.length picked = count_events is_predictable_line tr.
Proof.
  intros Hpicked.
  destruct (pick_markets_loop_accounts sv self markets [] picked Hpicked)
    as [Hiter Hlen].
  split; [exact Hiter | exact Hlen].
Qed.

Lemma pick_markets_log_accounts_witness :
  let tr := trace (pick_markets Sample.services Sample.gpt3
                     [Sample.manifold_rain; Sample.omen_vague; Sample.manifold_snow]) in
  markets_evaluated tr
  = (count_events is_skipping tr + count_events is_predictability_request tr)%nat
  ∧ List.length [Sample.manifold_snow] = count_events is_predictable_line tr.
Proof.
  refine (pick_markets_log_accounts Sample.services Sample.gpt3
            [Sample.manifold_rain; Sample.omen_vague; Sample.manifold_snow]
            [Sample.manifold_snow] _).
  vm_compute. reflexivity.
Defined.

(** X8. When every candidate is a Manifold market, each market the loop
    looks at costs one market lookup for every bet of the 24-hour history:
    the lookups of a run number the markets looked at times the bets. *)
Theorem manifold_lookups_per_market_and_bet sv self markets :
  Forall (λ market, is_Manifold market = true) markets →
  let tr := trace (pick_markets sv self markets) in
  count_events is_market_lookup tr
  = (markets_evaluated tr * List.length (manifold_bets_24h sv))%nat.
Proof.
  intros Hall.
  exact (pick_markets_loop_lookups sv self markets [] Hall).
Qed.

Lemma manifold_lookups_per_market_and_bet_witness :
  count_events is_market_lookup
    (trace (pick_markets Sample.services Sample.gpt3
              [Sample.manifold_rain; Sample.manifold_snow]))
  = (markets_evaluated
       (trace (pick_markets Sample.services Sample.gpt3
                 [Sample.manifold_rain; Sample.manifold_snow]))
     * List.length (manifold_bets_24h Sample.services))%nat.
Proof.
  refine (manifold_lookups_per_market_and_bet Sample.services Sample.gpt3
            [Sample.manifold_rain; Sample.manifold_snow] _).
  repeat constructor.
Defined.

(** ** Further properties of the stake *)

(** X9. A market that [pick_markets] returned can always be sized: for any
    answer [calculate_bet_amount] returns a bet, without raising, and the
    bet is in the currency of the market, also when the amount is that of
    the tiny bet. *)
Theorem picked_market_can_be_sized sv self markets picked market answer :
  result (pick_markets sv self markets) = Return picked →
  market ∈ picked →
  ∃ bet, result (calculate_bet_amount sv answer market) = Return bet
         ∧ BetAmount.currency bet = currency market.
Proof.
  intros Hpicked Hin.
  destruct (pick_markets_loop_passes sv self markets [] picked market Hpicked Hin)
    as [Hnil|[_ Hpass]]; [by apply elem_of_nil in Hnil|].
  apply passes_true in Hpass as [Hrecent _].
  pose proof (recently_betted_returns_known sv market false Hrecent) as Hknown.
  destruct (amount_and_max_bet_amount_returns sv answer market Hknown)
    as (amount & max_bet_amount & Heq).
  rewrite (calculate_bet_amount_of sv _ _ _ _ Heq).
  destruct (Qgtb amount max_bet_amount); eexists; by split.
Qed.

Lemma picked_market_can_be_sized_witness :
  ∃ bet, result (calculate_bet_amount Sample.services Sample.no Sample.manifold_snow)
         = Return bet
         ∧ BetAmount.currency bet = "Mana".
Proof.
  refine (picked_market_can_be_sized Sample.services Sample.gpt3
            [Sample.manifold_rain; Sample.omen_eth; Sample.omen_vague;
             Sample.omen_btc; Sample.manifold_snow]
            [Sample.omen_eth; Sample.manifold_snow]
            Sample.manifold_snow Sample.no _ _).
  - vm_compute. reflexivity.
  - apply list_elem_of_further, list_elem_of_here.
Defined.

(** X10. The stake depends on the answer through its decision only: two
    answers with the same decision get the same bet and the same log,
    whatever their probability and confidence. *)
Theorem calculate_bet_amount_reads_decision_only sv answer1 answer2 market :
  decision answer1 = decision answer2 →
  calculate_bet_amount sv answer1 market = calculate_bet_amount sv answer2 market.
Proof.
  intros Hdecision.
  unfold calculate_bet_amount, amount_and_max_bet_amount.
  destruct (class_of market) as [g|liq|]; [| |done].
  - by rewrite Hdecision.
  - by rewrite Hdecision.
Qed.

Lemma calculate_bet_amount_reads_decision_only_witness :
  calculate_bet_amount Sample.services
    {| decision := true; p_yes := 0.99; confidence := 0.1 |} Sample.omen_lean
  = calculate_bet_amount Sample.services Sample.yes Sample.omen_lean.
Proof.
  exact (calculate_bet_amount_reads_decision_only Sample.services
           {| decision := true; p_yes := 0.99; confidence := 0.1 |} Sample.yes
           Sample.omen_lean eq_refl).
Defined.

(** X11. On an Omen market with a liquidity above 5 and a base stake between
    0.5 and 1.0 the tiny bet is never substituted: [calculate_bet_amount]
    logs nothing and returns the base stake times 0.75 or 1.25, an amount
    between 0.375 and 1.25. *)
Theorem omen_high_liquidity_bets_computed_amount sv answer market market_liquidity :
  class_of market = OmenAgentMarket market_liquidity →
  (5 < market_liquidity)%Q →
  (0.5 <= base_stake sv market)%Q → (base_stake sv market <= 1.0)%Q →
  ∃ amount,
    calculate_bet_amount sv answer market
    = mkM [] (Return (BetAmount.mk amount (currency market)))
    ∧ amount = (base_stake sv market
                * if Bool.eqb (decision answer) (majority market)
                  then 0.75 else 1.25)%Q
    ∧ (0.375 <= amount)%Q ∧ (amount <= 1.25)%Q.
Proof.
  intros Hclass Hliq%Qgtb_true Hlo Hhi.
  pose proof (amount_and_max_bet_amount_Omen sv answer market _ Hclass) as Heq.
  rewrite Hliq in Heq.
  rewrite (calculate_bet_amount_of sv _ _ _ _ Heq).
  eexists. split; [|split; [reflexivity|]].
  - assert (Qgtb (base_stake sv market
                  * (if Bool.eqb (decision answer) (majority market)
                     then 0.75 else 1.25)) 2.0 = false) as ->; [|done].
    apply Qgtb_false.
    destruct (Bool.eqb (decision answer) (majority market)); lra.
  - destruct (Bool.eqb (decision answer) (majority market)); split; lra.
Qed.

Lemma omen_high_liquidity_bets_computed_amount_witness :
  ∃ amount,
    calculate_bet_amount Sample.services Sample.no Sample.omen_lean
    = mkM [] (Return (BetAmount.mk amount "xDai"))
    ∧ amount = (base_stake Sample.services Sample.omen_lean
                * if Bool.eqb (decision Sample.no) (majority Sample.omen_lean)
                  then 0.75 else 1.25)%Q
    ∧ (0.375 <= amount)%Q ∧ (amount <= 1.25)%Q.
Proof.
  assert (5 < 10)%Q as Hliq by reflexivity.
  assert (0.5 <= base_stake Sample.services Sample.omen_lean)%Q as Hlo
    by discriminate.
  assert (base_stake Sample.services Sample.omen_lean <= 1.0)%Q as Hhi
    by discriminate.
  exact (omen_high_liquidity_bets_computed_amount Sample.services Sample.no
           Sample.omen_lean 10 eq_refl Hliq Hlo Hhi).
Defined.

(** ** Selecting again *)

Lemma filter_all_true {A} (f : A → bool) (l : list A) :
  (∀ x, x ∈ l → f x = true) → List.filter f l = l.
Proof.
  induction l as [|x l IH]; intros Hall; [done|]. cbn.
  rewrite (Hall x) by apply list_elem_of_here.
  f_equal. apply IH. intros y Hy. by apply Hall, list_elem_of_further.
Qed.

(** X12. With a cap of at least one, selecting among the markets that a run
    of [pick_markets] returned returns them all again, in the same order:
    against the same bet history and oracle the selection is idempotent. *)
Theorem pick_markets_idempotent sv self markets picked :
  1 ≤ max_markets_per_run self →
  result (pick_markets sv self markets) = Return picked →
  result (pick_markets sv self picked) = Return picked.
Proof.
  intros Hcap Hpicked.
  assert (Z.of_nat (List.length (@nil AgentMarket)) < max_markets_per_run self)
    as Hlt by (cbn; lia).
  assert (∀ market, market ∈ picked → passes sv self market = true) as Hpass.
  { intros market Hin.
    destruct (pick_markets_loop_passes sv self markets [] picked market Hpicked Hin)
      as [Hnil|[_ ?]]; [by apply elem_of_nil in Hnil | done]. }
  assert (Forall (λ market, class_of market ≠ OtherAgentMarket) picked) as Hknown.
  { apply Forall_forall. intros market Hin.
    destruct (proj1 (passes_true sv self market) (Hpass market Hin)) as [Hrecent _].
    exact (recently_betted_returns_known sv market false Hrecent). }
  destruct (pick_markets_loop_returns sv self picked [] Hknown) as [out Hout].
  unfold pick_markets. rewrite Hout. f_equal.
  rewrite (pick_markets_loop_take sv self picked [] out Hlt Hout).
  cbn [List.length app]. rewrite Nat.sub_0_r, (filter_all_true _ _ Hpass).
  apply take_ge.
  pose proof (pick_markets_loop_length sv self markets [] picked Hlt Hpicked).
  lia.
Qed.

Lemma pick_markets_idempotent_witness :
  result (pick_markets Sample.services Sample.gpt3
            [Sample.omen_eth; Sample.manifold_snow])
  = Return [Sample.omen_eth; Sample.manifold_snow].
Proof.
  refine (pick_markets_idempotent Sample.services Sample.gpt3
            [Sample.manifold_rain; Sample.omen_eth; Sample.omen_vague;
             Sample.omen_btc; Sample.manifold_snow]
            [Sample.omen_eth; Sample.manifold_snow] _ _).
  - cbn. lia.
  - vm_compute. reflexivity.
Defined.
